(** * Multi-LLM proxy: configuration loader, backend strategies, factory
    and HTTP handlers

    A shallow embedding of [src/config-loader.js], [src/backend-factory.js],
    [src/strategies/cerebras-strategy.js],
    [src/strategies/self-hosted-strategy.js] and the route handlers of
    [src/proxy-server.js], with the properties the specification states
    about them.

    The JavaScript runtime is modelled by the small fragment the sources
    use: dynamically typed values, truthiness, [||], string conversion in
    template literals and property keys (which throws on an object
    without a usable [toString]), property reads that raise a [TypeError]
    on [undefined] and [null] and that find what every object inherits,
    and exceptions as an error monad.  The outside
    world (the HTTP client [axios], the platform's [URL] parser, the file
    system behind [fs-extra]) is passed in explicitly. *)

From Stdlib Require Import String Ascii List ZArith Lia Bool DecimalString.
Import ListNotations.
Open Scope string_scope.
Open Scope list_scope.

(* ===================================================================== *)
(** * The JavaScript fragment *)
(* ===================================================================== *)

Module JS.

(** Values.  Numbers are the integers (HTTP status codes, token counters,
    ports); strings are sequences of characters below 256, one per code
    unit; an object is the ordered list of its own enumerable properties,
    as [Object.keys] and [JSON.stringify] see it.  [VErr name message extra] is an instance of an [Error] class:
    the class name, the message, and the properties assigned to it
    afterwards ([recommendations], [supportedTypes]).  No value is
    callable.  Of the properties a value inherits from the built-in
    prototypes, [prop] knows [length] only, which is enough for the names
    the sources write out; a read under a computed key goes through
    [member], which also finds what every plain object inherits.  Numbers
    that are not integers are outside the model. *)
#[warnings="-register-all"]
Inductive value : Type :=
| VUndef
| VNull
| VBool (b : bool)
| VNum (n : Z)
| VStr (s : string)
| VArr (elems : list value)
| VObj (props : list (string * value))
| VErr (name message : string) (extra : list (string * value)).

Definition props : Type := list (string * value).

(** The outcome of evaluating an expression or a call: a value, or a
    thrown value.  An [async] function that rejects is a [Throw]. *)
Inductive completion (A : Type) : Type :=
| Return (a : A)
| Throw (e : value).
Arguments Return {A} a.
Arguments Throw {A} e.

Definition bind {A B : Type} (c : completion A) (k : A -> completion B)
  : completion B :=
  match c with
  | Return a => k a
  | Throw e => Throw e
  end.

(** [try { c } catch (error) { h error }] *)
Definition try_catch {A : Type} (c : completion A) (h : value -> completion A)
  : completion A :=
  match c with
  | Return a => Return a
  | Throw e => h e
  end.

Definition TypeError (message : string) : value := VErr "TypeError" message [].
(** [new Error(message)] *)
Definition Error (message : string) : value := VErr "Error" message [].

(** ** Truthiness, [||], [===] against a literal *)

Definition truthy (v : value) : bool :=
  match v with
  | VUndef | VNull => false
  | VBool b => b
  | VNum n => negb (Z.eqb n 0)
  | VStr s => negb (String.eqb s "")
  | VArr _ | VObj _ | VErr _ _ _ => true
  end.

Definition nullish (v : value) : bool :=
  match v with
  | VUndef | VNull => true
  | _ => false
  end.

(** [a || b] *)
Definition js_or (a b : value) : value := if truthy a then a else b.

(** [v === 'literal'] *)
Definition is_str (v : value) (lit : string) : bool :=
  match v with
  | VStr s => String.eqb s lit
  | _ => false
  end.

(** [v === 401] *)
Definition is_num (v : value) (lit : Z) : bool :=
  match v with
  | VNum n => Z.eqb n lit
  | _ => false
  end.

Definition isArray (v : value) : bool :=
  match v with
  | VArr _ => true
  | _ => false
  end.

(** [typeof v === 'object'] *)
Definition typeof_object (v : value) : bool :=
  match v with
  | VNull | VArr _ | VObj _ | VErr _ _ _ => true
  | _ => false
  end.

(** ** Strings *)

Definition dquote : string := String (ascii_of_nat 34) "".

Definition string_of_Z (n : Z) : string := NilZero.string_of_int (Z.to_int n).
Definition string_of_nat (n : nat) : string := NilZero.string_of_uint (Nat.to_uint n).

(** [Array.prototype.join(',')] on already converted elements. *)
Fixpoint join_comma (parts : list string) : string :=
  match parts with
  | [] => ""
  | [p] => p
  | p :: rest => p ++ "," ++ join_comma rest
  end.

(** The text of [String(v)], the conversion a template literal and a
    computed property key apply, where that conversion returns; whether it
    does is [converts] below, and [ToString] is the conversion itself. *)
Fixpoint to_string (v : value) : string :=
  match v with
  | VUndef => "undefined"
  | VNull => "null"
  | VBool true => "true"
  | VBool false => "false"
  | VNum n => string_of_Z n
  | VStr s => s
  | VArr elems =>
      join_comma (map (fun e => if nullish e then "" else to_string e) elems)
  | VObj _ => "[object Object]"
  | VErr name message _ =>
      if String.eqb message "" then name
      else if String.eqb name "" then message
      else name ++ ": " ++ message
  end.

Fixpoint is_prefix (p s : string) : bool :=
  match p, s with
  | EmptyString, _ => true
  | String a p', String b s' => Ascii.eqb a b && is_prefix p' s'
  | String _ _, EmptyString => false
  end.

(** [s.includes(sub)] *)
Fixpoint includes (s sub : string) : bool :=
  is_prefix sub s ||
  match s with
  | EmptyString => false
  | String _ s' => includes s' sub
  end.

(** The white space and line terminators of the language among the
    characters below 256: tab to carriage return, space, no-break space. *)
Definition is_space (c : ascii) : bool :=
  let n := nat_of_ascii c in
  Nat.eqb n 32 || (Nat.leb 9 n && Nat.leb n 13) || Nat.eqb n 160.

Fixpoint trim_start (s : string) : string :=
  match s with
  | EmptyString => EmptyString
  | String c s' => if is_space c then trim_start s' else s
  end.

Fixpoint rev_string (acc s : string) : string :=
  match s with
  | EmptyString => acc
  | String c s' => rev_string (String c acc) s'
  end.

(** [s.trim()] *)
Definition trim (s : string) : string :=
  rev_string "" (trim_start (rev_string "" (trim_start s))).

(** The lower-case letter of [A] to [Z] and of the accented capitals 192
    to 222 (215, the multiplication sign, is no letter). *)
Definition lower_ascii (c : ascii) : ascii :=
  let n := nat_of_ascii c in
  if (Nat.leb 65 n && Nat.leb n 90)
     || (Nat.leb 192 n && Nat.leb n 222 && negb (Nat.eqb n 215))
  then ascii_of_nat (n + 32) else c.

Fixpoint toLowerCase (s : string) : string :=
  match s with
  | EmptyString => EmptyString
  | String c s' => String (lower_ascii c) (toLowerCase s')
  end.

(** ** Properties *)

Fixpoint lookup (k : string) (ps : props) : option value :=
  match ps with
  | [] => None
  | (k', v) :: rest => if String.eqb k k' then Some v else lookup k rest
  end.

(** [obj[k] = v] on the property list of an object: an existing key keeps
    its place, a new one goes last. *)
Fixpoint assign (k : string) (v : value) (ps : props) : props :=
  match ps with
  | [] => [(k, v)]
  | (k', v') :: rest =>
      if String.eqb k k' then (k, v) :: rest else (k', v') :: assign k v rest
  end.

Fixpoint indexed_from (i : nat) (elems : list value) : props :=
  match elems with
  | [] => []
  | e :: rest => (string_of_nat i, e) :: indexed_from (S i) rest
  end.

Fixpoint chars (s : string) : list value :=
  match s with
  | EmptyString => []
  | String c s' => VStr (String c "") :: chars s'
  end.

(** The own enumerable properties of a value, in [Object.keys] order. *)
Definition own_entries (v : value) : props :=
  match v with
  | VObj ps => ps
  | VArr elems => indexed_from 0 elems
  | VStr s => indexed_from 0 (chars s)
  | VErr _ _ extra => extra
  | VUndef | VNull | VBool _ | VNum _ => []
  end.

(** [v[k]] for a [v] that is neither [undefined] nor [null] (there it is
    [undefined] here, which is what [v?.[k]] gives). *)
Definition prop (v : value) (k : string) : value :=
  match v with
  | VUndef | VNull | VBool _ | VNum _ => VUndef
  | VArr elems =>
      if String.eqb k "length" then VNum (Z.of_nat (length elems))
      else match lookup k (indexed_from 0 elems) with Some x => x | None => VUndef end
  | VStr s =>
      if String.eqb k "length" then VNum (Z.of_nat (String.length s))
      else match lookup k (indexed_from 0 (chars s)) with Some x => x | None => VUndef end
  | VObj ps => match lookup k ps with Some x => x | None => VUndef end
  | VErr name message extra =>
      if String.eqb k "message" then VStr message
      else match lookup k extra with
           | Some x => x
           | None => if String.eqb k "name" then VStr name else VUndef
           end
  end.

(** [v.k] and [v[k]]: a [TypeError] when [v] is [undefined] or [null]. *)
Definition get (v : value) (k : string) : completion value :=
  match v with
  | VUndef | VNull =>
      Throw (TypeError ("Cannot read properties of " ++ to_string v
                        ++ " (reading '" ++ k ++ "')"))
  | _ => Return (prop v k)
  end.

(** [Object.keys(v)] *)
Definition keys (v : value) : completion (list string) :=
  if nullish v then Throw (TypeError "Cannot convert undefined or null to object")
  else Return (map fst (own_entries v)).

(** [Object.values(v)] *)
Definition values (v : value) : completion (list value) :=
  if nullish v then Throw (TypeError "Cannot convert undefined or null to object")
  else Return (map snd (own_entries v)).

(** [{ ...target, ...src }]: every own enumerable key of [src] is read
    from [src] and defined on the target ([CopyDataProperties]); spreading
    [undefined], [null], a number or a boolean adds nothing. *)
Definition spread (target : props) (src : value) : props :=
  fold_left (fun acc k => assign k (prop src k) acc) (map fst (own_entries src)) target.

(** [target[k] = v] where [target] is a value.  [load] does it on
    [config.backends] only, which is a plain object at that point. *)
Definition set_prop (target : value) (k : string) (v : value) : value :=
  match target with
  | VObj ps => VObj (assign k v ps)
  | other => other
  end.

(** [undefined] or a plain object: what [config.backends] is at every
    point of [load]. *)
Definition undef_or_object (v : value) : bool :=
  match v with
  | VUndef | VObj _ => true
  | _ => false
  end.

(** [keys.includes(k)] on a list of keys. *)
Definition mem (k : string) (ks : list string) : bool := existsb (String.eqb k) ks.

(** [arr.some(f)] for a callback that may throw: the first truthy answer
    stops the scan. *)
Fixpoint some (f : value -> completion value) (xs : list value) : completion bool :=
  match xs with
  | [] => Return false
  | x :: rest =>
      match f x with
      | Throw e => Throw e
      | Return r => if truthy r then Return true else some f rest
      end
  end.

(** ** String conversion that can throw *)

(** Whether [String(v)] returns.  An object with an own property
    [toString] has lost the inherited method: no value of the model is
    callable, so the conversion finds nothing to call under [toString],
    gets the object back from the inherited [valueOf], and throws.  An
    array is converted by joining its converted elements, [undefined] and
    [null] counting as the empty string. *)
Fixpoint converts (v : value) : bool :=
  match v with
  | VObj ps => negb (mem "toString" (map fst ps))
  | VErr _ _ extra => negb (mem "toString" (map fst extra))
  | VArr elems => forallb (fun e => nullish e || converts e) elems
  | _ => true
  end.

(** Whether the numbers that [String(v)] writes out are integers that a
    JavaScript number holds exactly: those are written digit by digit
    (from 10^21 on the language switches to exponent notation). *)
Fixpoint exact_numbers (v : value) : bool :=
  match v with
  | VNum n => Z.leb (Z.abs n) 9007199254740991
  | VArr elems => forallb (fun e => nullish e || exact_numbers e) elems
  | _ => true
  end.

(** Whether [String(v)] returns the text that [to_string] gives. *)
Definition prints (v : value) : bool := converts v && exact_numbers v.

(** [`${v}`] and the conversion of a computed property key. *)
Definition ToString (v : value) : completion string :=
  if converts v then Return (to_string v)
  else Throw (TypeError "Cannot convert object to primitive value").

(** ** Inherited members *)

(** The names that every plain object inherits from [Object.prototype]. *)
Definition Object_prototype : list string :=
  [ "constructor"; "__defineGetter__"; "__defineSetter__"; "hasOwnProperty";
    "__lookupGetter__"; "__lookupSetter__"; "isPrototypeOf";
    "propertyIsEnumerable"; "toString"; "valueOf"; "__proto__";
    "toLocaleString" ].

(** What a read finds under one of these names: a built-in function (the
    prototype object itself for [__proto__]).  The sources only test such
    a value for truth and read [type] from it; it is truthy and has no
    [type], and it is written here as an object without properties. *)
Definition builtin : value := VObj [].

(** [obj[k]] for a computed key [k]: the own property of a plain object,
    or else the member it inherits.  An own property that holds
    [undefined] is read as absent; parsed JSON has none. *)
Definition member (obj : value) (k : string) : value :=
  match obj, prop obj k with
  | VObj _, VUndef => if mem k Object_prototype then builtin else VUndef
  | _, v => v
  end.

End JS.

Import JS.

Declare Scope js_scope.
Delimit Scope js_scope with js.
Notation "x <- c ;; k" := (bind c (fun x => k))
  (at level 61, c at next level, right associativity) : js_scope.
Notation "c ;;; k" := (bind c (fun _ => k))
  (at level 61, right associativity) : js_scope.
Open Scope js_scope.

(* ===================================================================== *)
(** * src/config-loader.js *)
(* ===================================================================== *)

Module ConfigLoader.

(** What one configuration source holds when [load] looks at it.  For a
    file: it does not exist, or reading it throws, or it parses to
    [content].  For the environment variable [LLM_BACKEND_CONFIG]: unset
    or empty, not valid JSON, or parsed. *)
Inductive source : Type :=
| Absent
| Unreadable
| Found (content : value).

(** The three places [load] reads, lowest precedence first. *)
Record sources : Type := {
  globalConfig : source;        (* <home>/.llm-proxy/config.json *)
  projectConfig : source;       (* <workspaceDir>/.llmrc.json *)
  LLM_BACKEND_CONFIG : source   (* process.env.LLM_BACKEND_CONFIG *)
}.

Definition getDefaultConfig : value :=
  VObj [
    ("backend", VStr "self-hosted");
    ("port", VStr "auto");
    ("backends", VObj [
       ("cerebras", VObj [
          ("type", VStr "cerebras");
          ("apiKey", VStr "YOUR_CEREBRAS_API_KEY");
          ("apiUrl", VStr "https://api.cerebras.ai/v1") ]);
       ("self-hosted", VObj [
          ("type", VStr "self-hosted");
          ("url", VStr "http://localhost:8000");
          ("description", VStr "Local Python proxy (simple_api_proxy.py)") ]);
       ("vast-ai", VObj [
          ("type", VStr "self-hosted");
          ("url", VStr "http://vast-instance:8000");
          ("description", VStr "Vast.ai instance with Redis caching") ]);
       ("runpod", VObj [
          ("type", VStr "self-hosted");
          ("url", VStr "http://runpod-instance:8000");
          ("description", VStr "RunPod instance with persistent storage") ]) ])
  ].

(** The body of the [forEach] of [mergeConfigs], for one key.  The
    assignment [merged[key] = ...] defines an own property, except under
    the key [__proto__], where it replaces what [merged] inherits; a
    source with that key is outside the model ([Facts.no_proto_key]
    below). *)
Definition merge_key (override : value) (merged : props) (key : string) : props :=
  if String.eqb key "backends" then
    assign "backends"
      (VObj (spread (spread [] (prop (VObj merged) "backends"))
                    (prop override "backends")))
      merged
  else
    assign key (prop override key) merged.

Definition mergeConfigs (base override : value) : completion props :=
  let merged := spread [] base in
  ks <- keys override ;;
  Return (fold_left (merge_key override) ks merged).

(** One of the steps 2 to 4 of [load]: the state is [config] and
    [hasExplicitConfig]; a throw inside the [try] is caught and only
    logged, and leaves both as they were. *)
Definition load_source (st : props * bool) (src : source) : props * bool :=
  match src with
  | Found content =>
      match mergeConfigs (VObj (fst st)) content with
      | Return merged => (merged, true)
      | Throw _ => st
      end
  | Absent | Unreadable => st
  end.

(** The [forEach] over the default backend names: a name whose entry is
    missing (or falsy) in [backends] gets the default entry. *)
Definition fill_backend (defaults : value) (backends : value) (backendName : string)
  : value :=
  if negb (truthy (prop backends backendName))
  then set_prop backends backendName (prop defaults backendName)
  else backends.

(** [defaultConfig.backends] and [Object.keys(defaultConfig.backends)]. *)
Definition defaultBackends : value := prop getDefaultConfig "backends".
Definition defaultBackendNames : list string := map fst (own_entries defaultBackends).

(** The [else] branch of step 5. *)
Definition merge_with_defaults (config : props) : props :=
  let config :=
    if negb (truthy (prop (VObj config) "backends"))
    then assign "backends" (VObj []) config else config in
  let backends :=
    fold_left (fill_backend defaultBackends) defaultBackendNames
              (prop (VObj config) "backends") in
  let config := assign "backends" backends config in
  if negb (truthy (prop (VObj config) "port"))
  then assign "port" (prop getDefaultConfig "port") config
  else config.

(** Steps 1 to 5 of [load]: the configuration that step 6 validates. *)
Definition merged_config (env : sources) : props :=
  let st := ([], false) in
  let st := load_source st (globalConfig env) in
  let st := load_source st (projectConfig env) in
  let st := load_source st (LLM_BACKEND_CONFIG env) in
  let '(config, hasExplicitConfig) := st in
  if negb hasExplicitConfig then spread [] getDefaultConfig
  else merge_with_defaults config.

Definition validateBackend (name : value) (backend : value) : completion unit :=
  type <- get backend "type" ;;
  if negb (truthy type) then
    n <- ToString name ;;
    Throw (Error ("Backend " ++ dquote ++ n ++ dquote
                  ++ " missing required field: type"))
  else if is_str type "cerebras" then
    if negb (truthy (prop backend "apiKey")) then
      n <- ToString name ;;
      Throw (Error ("Backend " ++ dquote ++ n ++ dquote
                    ++ " missing required field: apiKey"))
    else Return tt
  else if is_str type "self-hosted" then
    if negb (truthy (prop backend "url")) then
      n <- ToString name ;;
      Throw (Error ("Backend " ++ dquote ++ n ++ dquote
                    ++ " missing required field: url"))
    else Return tt
  else
    n <- ToString name ;;
    t <- ToString type ;;
    Throw (Error ("Backend " ++ dquote ++ n ++ dquote
                  ++ " has invalid type: " ++ t)).

Definition validateConfig (config : value) : completion unit :=
  backend <- get config "backend" ;;
  if negb (truthy backend) then
    Throw (Error "Missing required field: backend")
  else
    let backends := prop config "backends" in
    if negb (truthy backends) || negb (typeof_object backends) then
      Throw (Error "Missing required field: backends")
    else
      key <- ToString backend ;;
      let active := member backends key in
      if negb (truthy active) then
        Throw (Error ("Backend " ++ dquote ++ key ++ dquote
                      ++ " not found in backends configuration"))
      else validateBackend backend active.

(** [config.backends[name]] *)
Definition backendEntry (config : value) (name : string) : value :=
  prop (prop config "backends") name.

Definition load (env : sources) : completion value :=
  let config := VObj (merged_config env) in
  validateConfig config ;;;
  Return config.

(** A backend entry holds a secret-shaped field: an [apiKey], a [password]
    or a [token] with a truthy value. *)
Definition secret_shaped (backend : value) : bool :=
  truthy (prop backend "apiKey") || truthy (prop backend "password")
  || truthy (prop backend "token").

Definition configContainsSecrets (config : value) : completion bool :=
  backends <- get config "backends" ;;
  if negb (truthy backends) then Return false
  else
    vs <- values backends ;;
    some (fun backend =>
            apiKey <- get backend "apiKey" ;;
            if truthy apiKey then Return apiKey
            else
              password <- get backend "password" ;;
              if truthy password then Return password
              else get backend "token")
         vs.

(** ** The file system behind [save] *)

(** A regular file: what [writeJson] stored in it (the value whose JSON
    text it holds) and its permission bits. *)
Record file : Type := { contents : value; mode : Z }.

(** The files by path, and the process's umask, which decides the
    permissions of a file that [writeJson] creates. *)
Record filesystem : Type := { files : list (string * file); umask : Z }.

Fixpoint find_file (path : string) (fs : list (string * file)) : option file :=
  match fs with
  | [] => None
  | (p, f) :: rest => if String.eqb path p then Some f else find_file path rest
  end.

Fixpoint put_file (path : string) (f : file) (fs : list (string * file))
  : list (string * file) :=
  match fs with
  | [] => [(path, f)]
  | (p, g) :: rest =>
      if String.eqb path p then (p, f) :: rest else (p, g) :: put_file path f rest
  end.

(** [fs.writeJson(path, v)]: an existing file keeps its permissions, a new
    one is created with [0o666 & ~umask]. *)
Definition writeJson (path : string) (v : value) (fs : filesystem) : filesystem :=
  let m := match find_file path (files fs) with
           | Some old => mode old
           | None => Z.ldiff 438 (umask fs)
           end in
  {| files := put_file path {| contents := v; mode := m |} (files fs);
     umask := umask fs |}.

(** [fs.chmod(path, m)] on a file that exists. *)
Definition chmod (path : string) (m : Z) (fs : filesystem) : filesystem :=
  match find_file path (files fs) with
  | Some f =>
      {| files := put_file path {| contents := contents f; mode := m |} (files fs);
         umask := umask fs |}
  | None => fs
  end.

(** The mode [0o600]: read and write for the owner, nothing else. *)
Definition owner_read_write : Z := 384.

(** [save(config, configPath)]: the file system it leaves, and whether it
    returned or threw.  [ensureDir] and [writeJson] are taken to succeed. *)
Definition save (config : value) (configPath : string) (fs : filesystem)
  : filesystem * completion unit :=
  let fs := writeJson configPath config fs in
  match configContainsSecrets config with
  | Throw e => (fs, Throw e)
  | Return true => (chmod configPath owner_read_write fs, Return tt)
  | Return false => (fs, Return tt)
  end.

End ConfigLoader.

(* ===================================================================== *)
(** * The outside world *)
(* ===================================================================== *)

(** What the strategies call and do not define: the platform's [URL]
    constructor (only whether it accepts its argument matters), and the
    HTTP client.  [axios_post url data config] and [axios_get url config]
    are the settled promises: the response object, or the rejection. *)
Record world : Type := {
  URL_parses : string -> bool;
  axios_post : string -> value -> value -> completion value;
  axios_get : string -> value -> completion value
}.

(** A necessary condition of the platform's parser, from the URL standard:
    without a base URL, the input (leading C0 controls and spaces stripped,
    tabs and newlines removed) must start with a scheme, a letter followed
    by letters, digits, [+], [-] or [.] up to a colon. *)
Definition is_alpha (c : ascii) : bool :=
  let n := nat_of_ascii c in
  (Nat.leb 65 n && Nat.leb n 90) || (Nat.leb 97 n && Nat.leb n 122).

Definition is_scheme_char (c : ascii) : bool :=
  let n := nat_of_ascii c in
  is_alpha c || (Nat.leb 48 n && Nat.leb n 57)
  || Nat.eqb n 43 || Nat.eqb n 45 || Nat.eqb n 46.

Fixpoint strip_leading (s : string) : string :=
  match s with
  | EmptyString => EmptyString
  | String c s' => if Nat.leb (nat_of_ascii c) 32 then strip_leading s' else s
  end.

Fixpoint remove_tab_newline (s : string) : string :=
  match s with
  | EmptyString => EmptyString
  | String c s' =>
      let n := nat_of_ascii c in
      if Nat.eqb n 9 || Nat.eqb n 10 || Nat.eqb n 13
      then remove_tab_newline s' else String c (remove_tab_newline s')
  end.

Fixpoint scheme_ends (s : string) : bool :=
  match s with
  | EmptyString => false
  | String c s' =>
      if Nat.eqb (nat_of_ascii c) 58 then true
      else if is_scheme_char c then scheme_ends s' else false
  end.

Definition url_has_scheme (s : string) : bool :=
  match remove_tab_newline (strip_leading s) with
  | EmptyString => false
  | String c s' => is_alpha c && scheme_ends s'
  end.

(** [x.includes(sub)] where [x] is truthy: strings and arrays have the
    method, nothing else that a JSON body or an error holds does. *)
Definition call_includes (receiver : string) (x : value) (sub : string)
  : completion bool :=
  match x with
  | VStr s => Return (includes s sub)
  | VArr elems => Return (existsb (fun e => is_str e sub) elems)
  | _ => Throw (TypeError (receiver ++ ".includes is not a function"))
  end.

(** [x.trim()] where [x] is truthy. *)
Definition call_trim (receiver : string) (x : value) : completion string :=
  match x with
  | VStr s => Return (trim s)
  | _ => Throw (TypeError (receiver ++ ".trim is not a function"))
  end.

(** The loop that deletes the keys of [requestData] whose value is
    [undefined]. *)
Definition remove_undefined (requestData : props) : props :=
  filter (fun kv => match snd kv with VUndef => false | _ => true end) requestData.

(** A parameter declared [options = {}]. *)
Definition default_param (arg dflt : value) : value :=
  match arg with
  | VUndef => dflt
  | _ => arg
  end.

Definition strings (l : list string) : value := VArr (map VStr l).

(* ===================================================================== *)
(** * src/strategies/cerebras-strategy.js *)
(* ===================================================================== *)

Module CerebrasStrategy.

Record t : Type := { apiKey : value; apiUrl : value }.

Definition validateConfig (config : value) : completion unit :=
  key <- get config "apiKey" ;;
  if negb (truthy key) then Throw (Error "Cerebras strategy requires apiKey")
  else
    trimmed <- call_trim "config.apiKey" key ;;
    if String.eqb trimmed "" then Throw (Error "Cerebras strategy requires apiKey")
    else Return tt.

(** [new CerebrasStrategy(config)] *)
Definition new (config : value) : completion t :=
  validateConfig config ;;;
  Return {| apiKey := prop config "apiKey";
            apiUrl := js_or (prop config "apiUrl") (VStr "https://api.cerebras.ai/v1") |}.

Definition transformResponse (cerebrasResponse : value) : completion value :=
  choices <- get cerebrasResponse "choices" ;;
  choice <- get choices "0" ;;
  id <- get cerebrasResponse "id" ;;
  message <- get choice "message" ;;
  content <- get message "content" ;;
  model <- get cerebrasResponse "model" ;;
  finish_reason <- get choice "finish_reason" ;;
  let usage := prop cerebrasResponse "usage" in
  Return (VObj [
    ("id", id);
    ("type", VStr "message");
    ("role", VStr "assistant");
    ("content", VArr [VObj [("type", VStr "text"); ("text", content)]]);
    ("model", model);
    ("stop_reason", if is_str finish_reason "stop" then VStr "end_turn" else finish_reason);
    ("stop_sequence", VNull);
    ("usage", VObj [
       ("input_tokens", js_or (prop usage "prompt_tokens") (VNum 0));
       ("output_tokens", js_or (prop usage "completion_tokens") (VNum 0)) ])
  ]).

Definition handleError (error : value) : completion value :=
  response <- get error "response" ;;
  if truthy response then
    let status := prop response "status" in
    let errorData := prop response "data" in
    if is_num status 401 then
      detail <- get errorData "error" ;;
      text <- ToString (js_or detail (VStr "Invalid credentials")) ;;
      Return (VErr "Error"
        ("Cerebras API authentication failed: " ++ text
         ++ ". Please check your API key configuration.") [])
    else if is_num status 429 then
      Return (VErr "Error"
        "Cerebras API rate limit exceeded. Please try again later or consider using a self-hosted backend."
        [("recommendations", strings [
            "Wait before retrying the request";
            "Switch to self-hosted backend: llm-proxy switch self-hosted";
            "Consider upgrading your Cerebras plan" ])])
    else if is_num status 503 then
      Return (VErr "Error"
        "Cerebras API service unavailable. The service may be experiencing issues."
        [("recommendations", strings [
            "Try switching to self-hosted backend: llm-proxy switch self-hosted";
            "Check Cerebras status page for service issues";
            "Consider using vast-ai or runpod backends for reliability" ])])
    else
      shown <- ToString status ;;
      detail <- get errorData "error" ;;
      text <- ToString (js_or detail (VStr "Unknown error")) ;;
      Return (VErr "Error"
        ("Cerebras API error (" ++ shown ++ "): " ++ text)
        [("recommendations", strings [
            "Check Cerebras API documentation";
            "Try switching to self-hosted backend: llm-proxy switch self-hosted" ])])
  else if is_str (prop error "code") "ECONNREFUSED"
          || is_str (prop error "code") "ENOTFOUND" then
    Return (VErr "Error"
      "Cannot connect to Cerebras API. Please check your internet connection."
      [("recommendations", strings [
          "Check your internet connection";
          "Verify DNS resolution";
          "Try switching to self-hosted backend: llm-proxy switch self-hosted" ])])
  else
    text <- ToString (prop error "message") ;;
    Return (VErr "Error"
      ("Cerebras API request failed: " ++ text)
      [("recommendations", strings [
          "Try switching to self-hosted backend: llm-proxy switch self-hosted" ])]).

(** The URL, body and options of the outbound call. *)
Definition endpoint (self : t) : string := to_string (apiUrl self) ++ "/chat/completions".

Definition request_config (self : t) : value :=
  VObj [("headers", VObj [
           ("Authorization", VStr ("Bearer " ++ to_string (apiKey self)));
           ("Content-Type", VStr "application/json") ])].

Definition request_data (messages options : value) : completion value :=
  model <- get options "model" ;;
  max_tokens <- get options "max_tokens" ;;
  temperature <- get options "temperature" ;;
  Return (VObj (remove_undefined [
    ("model", js_or model (VStr "qwen-3-coder-480b"));
    ("messages", messages);
    ("max_tokens", max_tokens);
    ("temperature", temperature) ])).

Definition executeRequest (w : world) (self : t) (messages options : value)
  : completion value :=
  let options := default_param options (VObj []) in
  try_catch
    (requestData <- request_data messages options ;;
     response <- axios_post w (endpoint self) requestData (request_config self) ;;
     data <- get response "data" ;;
     transformResponse data)
    (fun error => safeError <- handleError error ;; Throw safeError).

End CerebrasStrategy.

(* ===================================================================== *)
(** * src/strategies/self-hosted-strategy.js *)
(* ===================================================================== *)

Module SelfHostedStrategy.

Record t : Type := { url : value; description : value }.

Definition validateConfig (w : world) (config : value) : completion unit :=
  u <- get config "url" ;;
  if negb (truthy u) then Throw (Error "Self-hosted strategy requires url")
  else
    trimmed <- call_trim "config.url" u ;;
    if String.eqb trimmed "" then Throw (Error "Self-hosted strategy requires url")
    else if URL_parses w (to_string u) then Return tt
    else Throw (Error "Invalid URL format").

(** [new SelfHostedStrategy(config)] *)
Definition new (w : world) (config : value) : completion t :=
  validateConfig w config ;;;
  Return {| url := prop config "url";
            description := js_or (prop config "description") (VStr "Self-hosted proxy") |}.

Definition handleError (self : t) (error : value) : completion value :=
  code <- get error "code" ;;
  if is_str code "ECONNREFUSED" || is_str code "ENOTFOUND" then
    address <- ToString (url self) ;;
    Return (VErr "Error"
      ("Cannot connect to self-hosted proxy at " ++ address
       ++ ". Please ensure the proxy is running.")
      [("recommendations", strings [
          "Check if the Python proxy is running: python3 simple_api_proxy.py";
          "Verify the proxy URL in your configuration";
          "Try switching to Cerebras backend: llm-proxy switch cerebras";
          "Check proxy logs for error details" ])])
  else
    timed_out <-
      (if is_str code "ECONNABORTED" then Return true
       else if truthy (prop error "message")
            then call_includes "error.message" (prop error "message") "timeout"
            else Return false) ;;
    if (timed_out : bool) then
      Return (VErr "Error"
        "Self-hosted proxy request timed out. The model may be loading or overloaded."
        [("recommendations", strings [
            "Wait for the model to finish loading";
            "Check if the GPU has sufficient memory";
            "Try switching to Cerebras backend: llm-proxy switch cerebras";
            "Restart the Python proxy if it appears stuck" ])])
    else if truthy (prop error "response") then
      let status := prop (prop error "response") "status" in
      let errorData := prop (prop error "response") "data" in
      e <- get errorData "error" ;;
      let errorMessage :=
        js_or (js_or e (prop errorData "detail")) (VStr "Unknown error") in
      not_loaded <-
        (if truthy errorMessage then
           nf <- call_includes "errorMessage" errorMessage "not found" ;;
           if (nf : bool) then Return true
           else
             m <- call_includes "errorMessage" errorMessage "model" ;;
             if (m : bool) then call_includes "errorMessage" errorMessage "not"
             else Return false
         else Return false) ;;
      if (not_loaded : bool) then
        text <- ToString errorMessage ;;
        Return (VErr "Error"
          ("Model not loaded on self-hosted proxy: " ++ text)
          [("recommendations", strings [
              "Run: ollama pull qwen3-coder";
              "Check available models: ollama list";
              "Verify model name in configuration";
              "Try switching to Cerebras backend: llm-proxy switch cerebras" ])])
      else
        shown <- ToString status ;;
        text <- ToString errorMessage ;;
        Return (VErr "Error"
          ("Self-hosted proxy error (" ++ shown ++ "): " ++ text)
          [("recommendations", strings [
              "Check proxy logs for detailed error information";
              "Verify the proxy is running correctly";
              "Try switching to Cerebras backend: llm-proxy switch cerebras" ])])
    else
      text <- ToString (js_or (prop error "message") (VStr "Unknown error")) ;;
      Return (VErr "Error"
        ("Self-hosted proxy request failed: " ++ text)
        [("recommendations", strings [
            "Check your network connection";
            "Verify the proxy URL is correct";
            "Try switching to Cerebras backend: llm-proxy switch cerebras" ])]).

Definition endpoint (self : t) : string := to_string (url self) ++ "/v1/messages".

Definition request_config : value :=
  VObj [("headers", VObj [("Content-Type", VStr "application/json")]);
        ("timeout", VNum 30000)].

Definition request_data (messages options : value) : completion value :=
  max_tokens <- get options "max_tokens" ;;
  temperature <- get options "temperature" ;;
  model <- get options "model" ;;
  Return (VObj (remove_undefined [
    ("messages", messages);
    ("max_tokens", max_tokens);
    ("temperature", temperature);
    ("model", model) ])).

Definition executeRequest (w : world) (self : t) (messages options : value)
  : completion value :=
  let options := default_param options (VObj []) in
  try_catch
    (requestData <- request_data messages options ;;
     response <- axios_post w (endpoint self) requestData request_config ;;
     get response "data")
    (fun error => safeError <- handleError self error ;; Throw safeError).

Definition checkHealth (w : world) (self : t) : completion value :=
  try_catch
    (response <- axios_get w (to_string (url self) ++ "/health")
                           (VObj [("timeout", VNum 5000)]) ;;
     data <- get response "data" ;;
     Return (VObj (assign "endpoint" (url self) (spread [] data))))
    (fun _ => Return (VObj [
        ("status", VStr "unhealthy");
        ("error", VStr "Cannot connect to proxy");
        ("endpoint", url self) ])).

End SelfHostedStrategy.

(* ===================================================================== *)
(** * src/backend-factory.js *)
(* ===================================================================== *)

Module BackendFactory.

(** What [createStrategy] returns: an instance of one of the two
    classes. *)
Inductive strategy : Type :=
| Cerebras (self : CerebrasStrategy.t)
| SelfHosted (self : SelfHostedStrategy.t).

Definition getSupportedTypes : list string := ["cerebras"; "self-hosted"].

Definition isSupported (type : value) : bool :=
  existsb (is_str type) getSupportedTypes.

Definition createStrategy (w : world) (config : value) : completion strategy :=
  if negb (truthy config) || negb (truthy (prop config "type")) then
    Throw (Error "Backend configuration missing required field: type")
  else
    let type := prop config "type" in
    if is_str type "cerebras" then
      self <- CerebrasStrategy.new config ;; Return (Cerebras self)
    else if is_str type "self-hosted" then
      self <- SelfHostedStrategy.new w config ;; Return (SelfHosted self)
    else
      text <- ToString type ;;
      Throw (VErr "Error" ("Unknown backend type: " ++ text)
                  [("supportedTypes", strings getSupportedTypes)]).

(** [strategy.executeRequest(messages, options)], by dynamic dispatch. *)
Definition executeRequest (w : world) (s : strategy) (messages options : value)
  : completion value :=
  match s with
  | Cerebras self => CerebrasStrategy.executeRequest w self messages options
  | SelfHosted self => SelfHostedStrategy.executeRequest w self messages options
  end.

(** [strategy.checkHealth], when the class has the method. *)
Definition checkHealth (w : world) (s : strategy) : option (completion value) :=
  match s with
  | Cerebras _ => None
  | SelfHosted self => Some (SelfHostedStrategy.checkHealth w self)
  end.

End BackendFactory.

(* ===================================================================== *)
(** * The specification's response schema *)
(* ===================================================================== *)

Module Schema.

Definition defined (v : value) : bool :=
  match v with
  | VUndef => false
  | _ => true
  end.

Definition has_key (k : string) (v : value) : bool :=
  match lookup k (own_entries v) with
  | Some _ => true
  | None => false
  end.

(** A content block [{type:"text", text}]. *)
Definition text_block (b : value) : bool :=
  is_str (prop b "type") "text" && defined (prop b "text").

(** The [NormalizedResponse] shape of section 4.2 of the specification, in
    its words: [{id, type:"message", role:"assistant",
    content:[{type:"text", text}], model, stop_reason, stop_sequence,
    usage:{input_tokens, output_tokens}}], all fields present and
    [content] a non-empty list of text blocks. *)
Definition NormalizedResponse (v : value) : bool :=
  match v with
  | VObj _ =>
      defined (prop v "id")
      && is_str (prop v "type") "message"
      && is_str (prop v "role") "assistant"
      && match prop v "content" with
         | VArr (b :: bs) => forallb text_block (b :: bs)
         | _ => false
         end
      && defined (prop v "model")
      && defined (prop v "stop_reason")
      && has_key "stop_sequence" v
      && defined (prop (prop v "usage") "input_tokens")
      && defined (prop (prop v "usage") "output_tokens")
  | _ => false
  end.

(** An error message mentions a word when it contains it, whatever the
    case of its letters. *)
Definition mentions (message word : string) : bool :=
  includes (toLowerCase message) (toLowerCase word).

End Schema.

(* ===================================================================== *)
(** * What [executeRequest] can give *)
(* ===================================================================== *)

Module Outcomes.

Import BackendFactory.


Definition is_null (v : value) : bool :=
  match v with
  | VNull => true
  | _ => false
  end.

Fixpoint same_keys (ks ks' : list string) : bool :=
  match ks, ks' with
  | [], [] => true
  | k :: r, k' :: r' => String.eqb k k' && same_keys r r'
  | _, _ => false
  end.

(** An object whose own keys are exactly [ks], in this order. *)
Definition has_keys (v : value) (ks : list string) : bool :=
  match v with
  | VObj ps => same_keys (map fst ps) ks
  | _ => false
  end.

(** The envelope that [transformResponse] builds: the eight fields, the
    constant ones with their values, one text block, both counters. *)
Definition envelope (v : value) : bool :=
  has_keys v ["id"; "type"; "role"; "content"; "model"; "stop_reason";
              "stop_sequence"; "usage"]
  && is_str (prop v "type") "message"
  && is_str (prop v "role") "assistant"
  && match prop v "content" with
     | VArr [block] =>
         has_keys block ["type"; "text"] && is_str (prop block "type") "text"
     | _ => false
     end
  && is_null (prop v "stop_sequence")
  && has_keys (prop v "usage") ["input_tokens"; "output_tokens"]
  && Schema.defined (prop (prop v "usage") "input_tokens")
  && Schema.defined (prop (prop v "usage") "output_tokens").











(** A completion whose value satisfies [P] and whose thrown value
    satisfies [Q]. *)
Definition gives {A : Type} (P : A -> Prop) (Q : value -> Prop) (c : completion A)
  : Prop :=
  match c with
  | Return a => P a
  | Throw e => Q e
  end.

End Outcomes.

(* ===================================================================== *)
(** * src/proxy-server.js: the route handlers *)
(* ===================================================================== *)

Module ProxyServer.

(** The object held in [this.currentStrategy], seen through the two
    methods the handlers use.  The integration tests put mock objects
    there, so the handlers are modelled over any such object:
    [executeRequest] is the settled promise of the call, [checkHealth] is
    [None] when [typeof checkHealth !== 'function']. *)
Record Strategy : Type := {
  executeRequest : value -> value -> completion value;
  checkHealth : option (completion value)
}.

(** The object the factory built, talking to the world [w]. *)
Definition instantiate (w : world) (s : BackendFactory.strategy) : Strategy :=
  {| executeRequest := BackendFactory.executeRequest w s;
     checkHealth := BackendFactory.checkHealth w s |}.

(** The fields of the server a handler reads: [this.config],
    [this.currentStrategy] ([None] for [null]) and [this.server], which is
    [null] until [start] assigns it what [app.listen] resolves to, the
    address of the server as a string. *)
Record server : Type := {
  config : value;
  currentStrategy : option Strategy;
  this_server : value
}.

(** An HTTP response: status code and the payload before serialisation. *)
Record reply : Type := { statusCode : Z; payload : value }.

(** What the framework answers when a handler rejects. *)
Definition internal_error (e : value) : reply :=
  {| statusCode := 500;
     payload := VObj [("statusCode", VNum 500);
                      ("error", VStr "Internal Server Error");
                      ("message", prop e "message")] |}.

(** [this.server ? this.server.address()?.port : null].  No value of the
    model has a method [address]: on a server that listens, where
    [this.server] is a string, the call throws. *)
Definition listening_port (srv : server) : completion value :=
  if truthy (this_server srv)
  then Throw (TypeError "this.server.address is not a function")
  else Return VNull.

(** [GET /health] at time [now].  The object literal is built outside the
    [try]: a throw there rejects the handler. *)
Definition health (now : value) (srv : server) : reply :=
  match (backend <- get (config srv) "backend" ;;
         port <- listening_port srv ;;
         Return (backend, port)) with
  | Throw e => internal_error e
  | Return (backend, port) =>
      let health := [ ("status", VStr "healthy");
                      ("timestamp", now);
                      ("backend", backend);
                      ("port", port) ] in
      match currentStrategy srv with
      | None => {| statusCode := 200; payload := VObj health |}
      | Some s =>
          match checkHealth s with
          | None => {| statusCode := 200; payload := VObj health |}
          | Some (Return backendHealth) =>
              {| statusCode := 200;
                 payload := VObj (assign "backendHealth" backendHealth health) |}
          | Some (Throw error) =>
              match get error "message" with
              | Throw e => internal_error e
              | Return message =>
                  let health :=
                    assign "backendHealth"
                      (VObj [("status", VStr "unhealthy"); ("error", message)])
                      health in
                  {| statusCode := 200;
                     payload := VObj (assign "status" (VStr "degraded") health) |}
              end
          end
      end
  end.

(** The [catch] of the [/v1/messages] handler. *)
Definition request_failed (error : value) : reply :=
  match get error "message" with
  | Throw e => internal_error e
  | Return message =>
      {| statusCode := 500;
         payload := VObj [
           ("error", message);
           ("recommendations",
            js_or (prop error "recommendations")
                  (strings ["Check backend configuration";
                            "Try switching to a different backend"])) ] |}
  end.

Definition messages_required : string :=
  "Messages field is required and must be a non-empty array".

(** [POST /v1/messages] with the parsed body [body]: the response, and the
    calls made to the active strategy's [executeRequest], each with its
    two arguments. *)
Definition messages (srv : server) (body : value) : reply * list (value * value) :=
  if nullish body then
    (request_failed (TypeError ("Cannot destructure property 'messages' of 'request.body' as it is "
                                ++ to_string body ++ ".")), [])
  else
    let messages := prop body "messages" in
    if negb (truthy messages) || negb (isArray messages)
       || is_num (prop messages "length") 0 then
      ({| statusCode := 400;
          payload := VObj [("error", VStr messages_required)] |}, [])
    else
      let options := VObj [
        ("max_tokens", prop body "max_tokens");
        ("temperature", prop body "temperature");
        ("model", js_or (prop body "model") (VStr "qwen3-coder")) ] in
      match currentStrategy srv with
      | None =>
          (request_failed
             (TypeError "Cannot read properties of null (reading 'executeRequest')"), [])
      | Some s =>
          match executeRequest s messages options with
          | Return result =>
              ({| statusCode := 200; payload := result |}, [(messages, options)])
          | Throw error => (request_failed error, [(messages, options)])
          end
      end.

End ProxyServer.


(* ===================================================================== *)
(** * src/proxy-server.js: the life cycle *)
(* ===================================================================== *)

Module ServerLifecycle.

(** The fields of a [ProxyServer] that [initialize], [initializeBackend]
    and [reloadConfig] assign: [this.app] (whether it is set),
    [this.config] and [this.currentStrategy] ([None] for [null]). *)
Record state : Type := {
  app : bool;
  config : value;
  currentStrategy : option BackendFactory.strategy
}.

(** [new ProxyServer(configLoader)] *)
Definition constructed : state :=
  {| app := false; config := VNull; currentStrategy := None |}.

Definition initializeBackend (w : world) (st : state) : state * completion unit :=
  match
    (backends <- get (config st) "backends" ;;
     name <- get (config st) "backend" ;;
     get backends (to_string name) ;;;
     key <- ToString name ;;
     let backendConfig := member backends key in
     if negb (truthy backendConfig) then
       Throw (Error ("Backend " ++ dquote ++ key ++ dquote
                     ++ " not found in configuration"))
     else BackendFactory.createStrategy w backendConfig)
  with
  | Throw e => (st, Throw e)
  | Return s =>
      ({| app := app st; config := config st; currentStrategy := Some s |}, Return tt)
  end.

(** [initialize(workspaceDir)], where [env] is what [load] finds. *)
Definition initialize (w : world) (env : ConfigLoader.sources) (st : state)
  : state * completion unit :=
  match ConfigLoader.load env with
  | Throw e => (st, Throw e)
  | Return cfg =>
      initializeBackend w
        {| app := true; config := cfg; currentStrategy := currentStrategy st |}
  end.

Definition reloadConfig (w : world) (env : ConfigLoader.sources) (st : state)
  : state * completion unit :=
  match ConfigLoader.load env with
  | Throw e => (st, Throw e)
  | Return cfg =>
      initializeBackend w
        {| app := app st; config := cfg; currentStrategy := currentStrategy st |}
  end.

(** [getCurrentBackend()]: [this.config?.backend]. *)
Definition getCurrentBackend (st : state) : value := prop (config st) "backend".

(** The server as the route handlers see it, not listening. *)
Definition handlers (w : world) (st : state) : ProxyServer.server :=
  {| ProxyServer.config := config st;
     ProxyServer.currentStrategy :=
       option_map (ProxyServer.instantiate w) (currentStrategy st);
     ProxyServer.this_server := VNull |}.

(** [GET /] at time [now]. *)
Definition root (now : value) (srv : ProxyServer.server) : ProxyServer.reply :=
  match get (ProxyServer.config srv) "backend" with
  | Throw e => ProxyServer.internal_error e
  | Return backend =>
      {| ProxyServer.statusCode := 200;
         ProxyServer.payload := VObj [
           ("service", VStr "Multi-LLM Proxy Server");
           ("status", VStr "running");
           ("backend", backend);
           ("version", VStr "1.0.0");
           ("timestamp", now) ] |}
  end.

End ServerLifecycle.

(* ===================================================================== *)
(** * The command line: [setup] and [switch] *)
(* ===================================================================== *)

Module Cli.

Import ConfigLoader.

(** How an action ends: it returns, or it calls [process.exit(code)]. *)
Inductive outcome : Type :=
| Completed
| Exited (code : Z).

(** [fs.pathExists(path)], for the path of a file. *)
Definition pathExists (path : string) (fs : filesystem) : bool :=
  match find_file path (files fs) with
  | Some _ => true
  | None => false
  end.

(** The action of [setup]; [configPath] is
    [path.join(options.workspace, '.llmrc.json')], and [workspaceExists]
    says whether the workspace directory is there: [setup] does not create
    it, and in a directory that is missing [writeJson] throws, which the
    [catch] turns into [process.exit(1)].  Other failures of the file
    system are not modelled. *)
Definition setup (workspaceExists : bool) (configPath : string) (fs : filesystem)
  : filesystem * outcome :=
  if pathExists configPath fs then (fs, Completed)
  else if negb workspaceExists then (fs, Exited 1)
  else
    (chmod configPath owner_read_write (writeJson configPath getDefaultConfig fs),
     Completed).


End Cli.

(* ===================================================================== *)
(** * Predicates used in the statements *)
(* ===================================================================== *)

Module Facts.

Import ConfigLoader.

(** A source without a key [__proto__] of its own.  Assigning under that
    key changes what the configuration inherits instead of defining a
    property, which the property lists of the model cannot express. *)
Definition no_proto_key (src : source) : bool :=
  match src with
  | Found content => negb (mem "__proto__" (map fst (own_entries content)))
  | Absent | Unreadable => true
  end.

Definition no_proto_keys (env : sources) : bool :=
  no_proto_key (globalConfig env) && no_proto_key (projectConfig env)
  && no_proto_key (LLM_BACKEND_CONFIG env).

(** A source that says nothing about the active backend: it is not
    there, or cannot be read, or is an object with no key [backend] and
    no key [__proto__]. *)
Definition silent_on_backend (src : source) : bool :=
  match src with
  | Absent | Unreadable => true
  | Found (VObj o) =>
      negb (mem "backend" (map fst o)) && negb (mem "__proto__" (map fst o))
  | Found _ => false
  end.

Definition is_found_object (src : source) : bool :=
  match src with
  | Found (VObj _) => true
  | _ => false
  end.

(** The messages of the errors that [validateConfig] and
    [validateBackend] throw, for the text [name] of the active name and
    the text [type] of the active entry's type. *)
Definition validation_messages (name type : string) : list string :=
  let backend tail := ("Backend " ++ dquote ++ name ++ dquote ++ tail)%string in
  [ "Missing required field: backend";
    "Missing required field: backends";
    backend " not found in backends configuration";
    backend " missing required field: type";
    backend " missing required field: apiKey";
    backend " missing required field: url";
    backend (" has invalid type: " ++ type)%string ].

(** A source that [load] gives up on: reading or parsing it throws, or
    it parses to [null], on which [Object.keys] throws. *)
Definition unusable (src : source) : bool :=
  match src with
  | Unreadable | Found VNull => true
  | _ => false
  end.

(** The sources with the unusable ones taken away. *)
Definition without_unusable (env : sources) : sources :=
  let clear src := if unusable src then Absent else src in
  {| globalConfig := clear (globalConfig env);
     projectConfig := clear (projectConfig env);
     LLM_BACKEND_CONFIG := clear (LLM_BACKEND_CONFIG env) |}.

End Facts.

(* ===================================================================== *)
(** * Concrete configurations, responses and failures *)
(* ===================================================================== *)

(** The inputs of the repository's tests and of the specification's
    scenarios, used below to run the model. *)
Module Scenarios.

Import ConfigLoader.

(** tests/unit/config-loader.test.js, "should load project .llmrc.json
    over global config". *)
Definition global_config : value :=
  VObj [("backend", VStr "global-backend");
        ("backends", VObj [
           ("global-backend", VObj [("type", VStr "cerebras");
                                    ("apiKey", VStr "global-key")]) ])].

Definition project_config : value :=
  VObj [("backend", VStr "project-backend");
        ("backends", VObj [
           ("project-backend", VObj [("type", VStr "self-hosted");
                                     ("url", VStr "http://localhost:8000")]) ])].

Definition global_and_project : sources :=
  {| globalConfig := Found global_config;
     projectConfig := Found project_config;
     LLM_BACKEND_CONFIG := Absent |}.

Definition nothing_configured : sources :=
  {| globalConfig := Absent; projectConfig := Absent; LLM_BACKEND_CONFIG := Absent |}.

Definition project_only (config : value) : sources :=
  {| globalConfig := Absent; projectConfig := Found config; LLM_BACKEND_CONFIG := Absent |}.

(** A project file whose active self-hosted backend has the url of
    tests/unit/backend-factory.test.js, "should pass through validation
    from strategy constructors". *)
Definition invalid_url_entry : value :=
  VObj [("type", VStr "self-hosted"); ("url", VStr "invalid-url")].

Definition invalid_url_config : value :=
  VObj [("backend", VStr "local");
        ("backends", VObj [("local", invalid_url_entry)])].

(** What [load] makes of it: the default backends and port filled in. *)
Definition invalid_url_loaded : value :=
  VObj [("backend", VStr "local");
        ("backends", VObj [
           ("local", invalid_url_entry);
           ("cerebras", prop defaultBackends "cerebras");
           ("self-hosted", prop defaultBackends "self-hosted");
           ("vast-ai", prop defaultBackends "vast-ai");
           ("runpod", prop defaultBackends "runpod") ]);
        ("port", VStr "auto")].


(** A project file whose active backend is missing from [backends]
    (tests/integration/proxy-server.test.js). *)
Definition nonexistent_backend : value :=
  VObj [("backend", VStr "nonexistent")].



(** The failure of a connection that nothing accepts. *)
Definition connection_refused : value :=
  VErr "Error" "connect ECONNREFUSED 127.0.0.1:9999" [("code", VStr "ECONNREFUSED")].

(** A world with no network, whose URL parser accepts what starts with a
    scheme. *)
Definition offline : world :=
  {| URL_parses := url_has_scheme;
     axios_post := fun _ _ _ => Throw connection_refused;
     axios_get := fun _ _ => Throw connection_refused |}.

(** tests/unit/config-loader.test.js, "should set 600 permissions on
    config files with secrets". *)
Definition config_with_secrets : value :=
  VObj [("backend", VStr "cerebras");
        ("backends", VObj [("cerebras", VObj [("type", VStr "cerebras");
                                              ("apiKey", VStr "secret-key")])])].

(** The same with an entry that is [null] before the one that holds the
    key, as a configuration file may have it. *)
Definition config_with_null_entry : value :=
  VObj [("backend", VStr "cerebras");
        ("backends", VObj [("retired", VNull);
                           ("cerebras", VObj [("type", VStr "cerebras");
                                              ("apiKey", VStr "secret-key")])])].

Definition empty_disk : filesystem := {| files := []; umask := 18 |}.

(** Scenario A of the specification: a cerebras backend with key [k], and
    a provider that answers every request with one choice. *)
Definition cloud : CerebrasStrategy.t :=
  {| CerebrasStrategy.apiKey := VStr "k";
     CerebrasStrategy.apiUrl := VStr "https://api.cerebras.ai/v1" |}.



Definition hello : value :=
  VArr [VObj [("role", VStr "user"); ("content", VStr "hello")]].

(** A cerebras backend with a long key, and a provider that answers 401
    and quotes the key it was sent, as the [Authorization] header carries
    it. *)
Definition long_key : string := "csk-4f9d2c7e81ab3065d1e7c2f94b6a8d03".

Definition cloud_long_key : CerebrasStrategy.t :=
  {| CerebrasStrategy.apiKey := VStr long_key;
     CerebrasStrategy.apiUrl := VStr "https://api.cerebras.ai/v1" |}.

Definition bearer_token (config : value) : string :=
  to_string (prop (prop config "headers") "Authorization").

Definition provider_quotes_key : world :=
  {| URL_parses := url_has_scheme;
     axios_post := fun _ _ config =>
       Throw (VErr "AxiosError" "Request failed with status code 401"
                [("code", VStr "ERR_BAD_REQUEST");
                 ("response", VObj [
                    ("status", VNum 401);
                    ("data", VObj [
                       ("error", VStr ("Invalid credentials: " ++ bearer_token config)) ]) ]) ]);
     axios_get := fun _ _ => Throw connection_refused |}.

(** Scenario C of the specification: a self-hosted backend at a port where
    nothing listens, as the active strategy of a server. *)
Definition unreachable : SelfHostedStrategy.t :=
  {| SelfHostedStrategy.url := VStr "http://localhost:9999";
     SelfHostedStrategy.description := VStr "Self-hosted proxy" |}.

Definition server_with (w : world) (s : BackendFactory.strategy) : ProxyServer.server :=
  {| ProxyServer.config := VObj [("backend", VStr "self-hosted")];
     ProxyServer.currentStrategy := Some (ProxyServer.instantiate w s);
     ProxyServer.this_server := VNull |}.



(** A JSON object that has no string form: its own [toString] is a
    number, not a method. *)
Definition not_a_string : value := VObj [("toString", VNum 1)].




Definition local : SelfHostedStrategy.t :=
  {| SelfHostedStrategy.url := VStr "http://localhost:8000";
     SelfHostedStrategy.description := VStr "Local Python proxy" |}.

(** The configurations of P5 of the specification, with the type names
    of the code. *)
Definition cloud_config : value :=
  VObj [("type", VStr "cerebras"); ("apiKey", VStr "x")].

Definition self_hosted_config : value :=
  VObj [("type", VStr "self-hosted"); ("url", VStr "http://h:1")].

Definition unknown_config : value := VObj [("type", VStr "unknown")].

Definition odd_type_config : value := VObj [("type", not_a_string)].

(** A strategy object that answers every request with [reply]. *)
Definition answering (reply : value) : ProxyServer.Strategy :=
  {| ProxyServer.executeRequest := fun _ _ => Return reply;
     ProxyServer.checkHealth := None |}.

Definition serving (s : ProxyServer.Strategy) : ProxyServer.server :=
  {| ProxyServer.config := VObj [("backend", VStr "cerebras")];
     ProxyServer.currentStrategy := Some s;
     ProxyServer.this_server := VNull |}.

End Scenarios.

(* ===================================================================== *)
(** * Further configurations and failures *)
(* ===================================================================== *)

Module MoreScenarios.

Import ConfigLoader.

(** tests/unit/config-loader.test.js, "should override with environment
    variables". *)
Definition env_override : value :=
  VObj [("backend", VStr "env-backend");
        ("backends", VObj [
           ("env-backend", VObj [("type", VStr "self-hosted");
                                 ("url", VStr "http://env:8000")]) ])].

Definition all_three : sources :=
  {| globalConfig := Found Scenarios.global_config;
     projectConfig := Found Scenarios.project_config;
     LLM_BACKEND_CONFIG := Found env_override |}.

(** tests/unit/config-loader.test.js, "should validate required fields": a
    project file with backends and no [backend]. *)
Definition no_active_backend : value :=
  VObj [("backends", VObj [("test", VObj [("type", VStr "cerebras")])])].

(** Scenario A of the specification as it is written there: the active
    entry has the type name of the specification, not of the code. *)
Definition unknown_type_active : value :=
  VObj [("backend", VStr "x");
        ("backends", VObj [("x", VObj [("type", VStr "managed-cloud");
                                       ("apiKey", VStr "k")])])].

Definition port_only : value := VObj [("port", VNum 3000)].


(** A self-hosted backend whose [/health] answers with a body. *)
Definition backend_is_up : world :=
  {| URL_parses := url_has_scheme;
     axios_post := fun _ _ _ => Throw Scenarios.connection_refused;
     axios_get := fun _ _ =>
       Return (VObj [("status", VNum 200);
                     ("data", VObj [("status", VStr "healthy");
                                    ("endpoint", VStr "internal")])]) |}.

(** A server that runs on the cerebras backend of Scenario A. *)
Definition running_on_cloud : ServerLifecycle.state :=
  {| ServerLifecycle.app := true;
     ServerLifecycle.config := Scenarios.config_with_secrets;
     ServerLifecycle.currentStrategy := Some (BackendFactory.Cerebras Scenarios.cloud) |}.

(** A global file that is fine and a project file with a syntax error. *)
Definition broken_project_file : sources :=
  {| globalConfig := Found Scenarios.global_config;
     projectConfig := Unreadable;
     LLM_BACKEND_CONFIG := Absent |}.

End MoreScenarios.
(* ===================================================================== *)
(** * Property lists *)
(* ===================================================================== *)

Section PropertyLists.

Lemma lookup_assign_same k v ps : lookup k (assign k v ps) = Some v.
Proof.
  induction ps as [|[k' v'] ps IH]; simpl.
  - now rewrite String.eqb_refl.
  - destruct (String.eqb k k') eqn:E; simpl.
    + now rewrite String.eqb_refl.
    + now rewrite E.
Qed.

Lemma lookup_assign_other k k' v ps :
  String.eqb k k' = false -> lookup k (assign k' v ps) = lookup k ps.
Proof.
  intros Hne. induction ps as [|[k2 v2] ps IH]; simpl.
  - now rewrite Hne.
  - destruct (String.eqb k' k2) eqn:E; simpl.
    + apply String.eqb_eq in E. subst k2. now rewrite Hne.
    + destruct (String.eqb k k2); [reflexivity | exact IH].
Qed.

Lemma lookup_assign k k' v ps :
  lookup k (assign k' v ps) = if String.eqb k k' then Some v else lookup k ps.
Proof.
  destruct (String.eqb k k') eqn:E.
  - apply String.eqb_eq in E. subst. apply lookup_assign_same.
  - now apply lookup_assign_other.
Qed.

Lemma prop_assign k k' v ps :
  prop (VObj (assign k' v ps)) k = if String.eqb k k' then v else prop (VObj ps) k.
Proof.
  simpl. rewrite lookup_assign. now destruct (String.eqb k k').
Qed.

(** A key listed among the keys of an object has a value there. *)
Lemma lookup_mem k (ps : props) :
  lookup k ps = if mem k (map fst ps) then Some (prop (VObj ps) k) else None.
Proof.
  unfold mem. induction ps as [|[k' v'] ps IH]; simpl; [reflexivity|].
  destruct (String.eqb k k'); simpl; [reflexivity|].
  rewrite IH. simpl. destruct (existsb (String.eqb k) (map fst ps)); [|reflexivity].
  now rewrite IH.
Qed.

Lemma mem_defined k (ps : props) :
  prop (VObj ps) k <> VUndef -> mem k (map fst ps) = true.
Proof.
  simpl. rewrite lookup_mem. destruct (mem k (map fst ps)); [reflexivity|].
  intros H. now elim H.
Qed.

(** Copying keys one by one, as an object spread and [mergeConfigs] do. *)
Lemma lookup_copy (f : string -> value) k ks target :
  lookup k (fold_left (fun acc key => assign key (f key) acc) ks target)
  = if mem k ks then Some (f k) else lookup k target.
Proof.
  unfold mem. revert target. induction ks as [|key ks IH]; intros target; simpl.
  - reflexivity.
  - rewrite IH, lookup_assign.
    destruct (String.eqb k key) eqn:E; simpl.
    + apply String.eqb_eq in E. subst key.
      now destruct (existsb (String.eqb k) ks).
    + reflexivity.
Qed.

Lemma lookup_spread k target src :
  lookup k (spread target src)
  = if mem k (map fst (own_entries src)) then Some (prop src k) else lookup k target.
Proof. unfold spread. apply lookup_copy. Qed.

Lemma prop_spread k target src :
  prop (VObj (spread target src)) k
  = if mem k (map fst (own_entries src)) then prop src k else prop (VObj target) k.
Proof.
  cbn [prop]. rewrite lookup_spread.
  now destruct (mem k (map fst (own_entries src))).
Qed.

(** Spreading an object into a fresh one keeps every property. *)
Lemma lookup_spread_object k ps : lookup k (spread [] (VObj ps)) = lookup k ps.
Proof.
  rewrite lookup_spread. simpl own_entries. rewrite (lookup_mem k ps).
  now destruct (mem k (map fst ps)).
Qed.

Lemma prop_spread_object k ps : prop (VObj (spread [] (VObj ps))) k = prop (VObj ps) k.
Proof. simpl. now rewrite lookup_spread_object. Qed.

Lemma truthy_defined v : truthy v = true -> v <> VUndef.
Proof. intros H E. subst v. discriminate H. Qed.

Lemma prop_nullish v k : nullish v = true -> prop v k = VUndef.
Proof. destruct v; try discriminate; reflexivity. Qed.

Lemma get_defined v k : nullish v = false -> get v k = Return (prop v k).
Proof. destruct v; try discriminate; reflexivity. Qed.

(** A value with a property that is neither [undefined] nor [null] is
    itself neither. *)
Lemma owner_not_nullish v k : nullish (prop v k) = false -> nullish v = false.
Proof.
  intros H. destruct (nullish v) eqn:E; [|reflexivity].
  now rewrite (prop_nullish v k E) in H.
Qed.

(** No index of an array or of a string is the key [type]. *)
Lemma no_type_index elems : forall i, lookup "type" (indexed_from i elems) = None.
Proof.
  induction elems as [|e elems IH]; intros i; [reflexivity|].
  cbn [indexed_from lookup].
  assert (E : String.eqb "type" (string_of_nat i) = false).
  { unfold string_of_nat. destruct (Nat.to_uint i); reflexivity. }
  rewrite E. apply IH.
Qed.

(** Only an object has a [type]. *)
Lemma typed_truthy entry : prop entry "type" <> VUndef -> truthy entry = true.
Proof.
  destruct entry as [| |b|n|s|elems|ps|en em ex]; cbn [truthy];
    try reflexivity; try (intros H; now elim H).
  intros H. exfalso. apply H. cbn [prop].
  change (String.eqb "type" "length") with false. cbv iota.
  now rewrite no_type_index.
Qed.

Lemma truthy_get v k : truthy v = true -> get v k = Return (prop v k).
Proof. destruct v; try discriminate; reflexivity. Qed.

(** ** String conversion and inherited members *)

Lemma ToString_converts v : converts v = true -> ToString v = Return (to_string v).
Proof. unfold ToString. now intros ->. Qed.

Lemma ToString_unconvertible v :
  converts v = false ->
  ToString v = Throw (TypeError "Cannot convert object to primitive value").
Proof. unfold ToString. now intros ->. Qed.

Lemma prints_converts v : prints v = true -> converts v = true.
Proof. unfold prints. intros H. now apply andb_true_iff in H. Qed.

Lemma ToString_prints v : prints v = true -> ToString v = Return (to_string v).
Proof. intros H. apply ToString_converts. now apply prints_converts. Qed.

(** What [ToString] returns is the text of [to_string]; what it throws is
    the conversion's [TypeError]. *)
Lemma ToString_cases v :
  (converts v = true /\ ToString v = Return (to_string v))
  \/ (converts v = false
      /\ ToString v = Throw (TypeError "Cannot convert object to primitive value")).
Proof.
  unfold ToString. destruct (converts v); [left | right]; split; reflexivity.
Qed.

(** A truthy own property is what a computed read finds. *)
Lemma member_own obj k : truthy (prop obj k) = true -> member obj k = prop obj k.
Proof.
  unfold member. intros H. destruct obj as [| | | | | |ps|]; try reflexivity.
  destruct (prop (VObj ps) k); try reflexivity. discriminate H.
Qed.

(** A computed read that finds something with a [type] found an own
    property. *)
Lemma member_typed obj k :
  truthy (prop (member obj k) "type") = true -> member obj k = prop obj k.
Proof.
  unfold member. destruct obj as [| | | | | |ps|]; try reflexivity.
  destruct (prop (VObj ps) k); try reflexivity.
  destruct (mem k Object_prototype); intros H; discriminate H.
Qed.



End PropertyLists.

(* ===================================================================== *)
(** * Facts about the configuration loader *)
(* ===================================================================== *)

Section ConfigLoaderFacts.

Import ConfigLoader.

Lemma prop_spread_plain X n :
  undef_or_object X = true -> prop (VObj (spread [] X)) n = prop X n.
Proof.
  destruct X; simpl; try discriminate; intros _.
  - reflexivity.
  - now rewrite lookup_spread_object.
Qed.

(** [mergeConfigs], key by key: a top-level key other than [backends] is
    taken from the override when the override has it. *)
Lemma merge_key_scalar ov k ks m :
  String.eqb k "backends" = false ->
  lookup k (fold_left (merge_key ov) ks m)
  = if mem k ks then Some (prop ov k) else lookup k m.
Proof.
  intros Hk. revert m. induction ks as [|key ks IH]; intros m; simpl.
  - reflexivity.
  - rewrite IH. unfold merge_key.
    destruct (String.eqb key "backends") eqn:Ekey.
    + apply String.eqb_eq in Ekey. subst key. rewrite Hk. simpl.
      destruct (mem k ks); [reflexivity|].
      now rewrite lookup_assign, Hk.
    + rewrite lookup_assign.
      destruct (String.eqb k key) eqn:E; simpl.
      * apply String.eqb_eq in E. subst key. now destruct (mem k ks).
      * reflexivity.
Qed.

(** [mergeConfigs] on the [backends] map: name by name, the override's
    entry when the override has the name, the base's entry otherwise. *)
Lemma merge_key_backends ov ks : forall m,
  undef_or_object (prop (VObj m) "backends") = true ->
  undef_or_object (prop (VObj (fold_left (merge_key ov) ks m)) "backends") = true
  /\ forall n,
      prop (prop (VObj (fold_left (merge_key ov) ks m)) "backends") n
      = if mem "backends" ks
        then if mem n (map fst (own_entries (prop ov "backends")))
             then prop (prop ov "backends") n
             else prop (prop (VObj m) "backends") n
        else prop (prop (VObj m) "backends") n.
Proof.
  induction ks as [|key ks IH]; intros m Hm.
  - simpl. split; [exact Hm | reflexivity].
  - cbn [fold_left]. unfold merge_key at 2 4.
    destruct (String.eqb key "backends") eqn:Ekey.
    + apply String.eqb_eq in Ekey. subst key.
      set (merged := spread (spread [] (prop (VObj m) "backends")) (prop ov "backends")).
      assert (Hb : prop (VObj (assign "backends" (VObj merged) m)) "backends" = VObj merged).
      { now rewrite prop_assign. }
      destruct (IH (assign "backends" (VObj merged) m)) as [I1 I2].
      { now rewrite Hb. }
      split; [exact I1|]. intros n. rewrite I2, Hb.
      assert (Hn : prop (VObj merged) n
                   = if mem n (map fst (own_entries (prop ov "backends")))
                     then prop (prop ov "backends") n
                     else prop (prop (VObj m) "backends") n).
      { unfold merged. now rewrite prop_spread, (prop_spread_plain _ n Hm). }
      rewrite Hn. cbn [mem existsb]. rewrite String.eqb_refl. cbn [orb].
      now destruct (mem "backends" ks), (mem n (map fst (own_entries (prop ov "backends")))).
    + assert (Hb : prop (VObj (assign key (prop ov key) m)) "backends"
                   = prop (VObj m) "backends").
      { rewrite prop_assign. rewrite String.eqb_sym in Ekey. now rewrite Ekey. }
      destruct (IH (assign key (prop ov key) m)) as [I1 I2].
      { now rewrite Hb. }
      split; [exact I1|]. intros n. rewrite I2, Hb.
      cbn [mem existsb]. rewrite String.eqb_sym in Ekey. rewrite Ekey. reflexivity.
Qed.

(** The default-filling loop, name by name: an entry that is there and
    truthy stays, a missing one is taken from the defaults. *)
Lemma fill_backends D names : forall b,
  exists b',
    fold_left (fill_backend D) names (VObj b) = VObj b'
    /\ forall n,
        prop (VObj b') n
        = if truthy (prop (VObj b) n) then prop (VObj b) n
          else if mem n names then prop D n else prop (VObj b) n.
Proof.
  induction names as [|name names IH]; intros b.
  - exists b. split; [reflexivity|]. intros n. simpl. now destruct (truthy _).
  - cbn [fold_left]. unfold fill_backend at 2.
    destruct (truthy (prop (VObj b) name)) eqn:Et; cbn [negb set_prop].
    + destruct (IH b) as [b' [E H]]. exists b'. split; [exact E|].
      intros n. rewrite H. cbn [mem existsb].
      destruct (String.eqb n name) eqn:En; [|reflexivity].
      apply String.eqb_eq in En. subst n. now rewrite Et.
    + destruct (IH (assign name (prop D name) b)) as [b' [E H]].
      exists b'. split; [exact E|]. intros n. rewrite H, prop_assign.
      cbn [mem existsb].
      destruct (String.eqb n name) eqn:En; cbn [orb]; [|reflexivity].
      apply String.eqb_eq in En. subst n. rewrite Et.
      now destruct (truthy (prop D name)), (mem name names).
Qed.

Lemma load_source_found c h o :
  load_source (c, h) (Found (VObj o))
  = (fold_left (merge_key (VObj o)) (map fst o) (spread [] (VObj c)), true).
Proof. reflexivity. Qed.

(** One object merged over the configuration so far. *)
Lemma merge_object c o :
  undef_or_object (prop (VObj c) "backends") = true ->
  let c' := fold_left (merge_key (VObj o)) (map fst o) (spread [] (VObj c)) in
  undef_or_object (prop (VObj c') "backends") = true
  /\ (forall k, String.eqb k "backends" = false ->
       prop (VObj c') k
       = if mem k (map fst o) then prop (VObj o) k else prop (VObj c) k)
  /\ (forall n,
       prop (prop (VObj c') "backends") n
       = if mem "backends" (map fst o)
         then if mem n (map fst (own_entries (prop (VObj o) "backends")))
              then prop (prop (VObj o) "backends") n
              else prop (prop (VObj c) "backends") n
         else prop (prop (VObj c) "backends") n).
Proof.
  intros Hc c'.
  assert (Hs : prop (VObj (spread [] (VObj c))) "backends" = prop (VObj c) "backends")
    by apply prop_spread_object.
  destruct (merge_key_backends (VObj o) (map fst o) (spread [] (VObj c))) as [I1 I2].
  { now rewrite Hs. }
  split; [exact I1|]. split.
  - intros k Hk. unfold c'. cbn [prop].
    rewrite (merge_key_scalar _ _ _ _ Hk), lookup_spread_object.
    now destruct (mem k (map fst o)).
  - intros n. unfold c'. rewrite I2, Hs. reflexivity.
Qed.

(** After any source, [config.backends] is still [undefined] or an
    object. *)
Lemma load_source_plain st src :
  undef_or_object (prop (VObj (fst st)) "backends") = true ->
  undef_or_object (prop (VObj (fst (load_source st src))) "backends") = true.
Proof.
  intros H. destruct src as [| |content]; cbn [load_source]; try exact H.
  unfold mergeConfigs, keys. destruct (nullish content); cbn [bind]; [exact H|].
  cbn [fst].
  apply (merge_key_backends content).
  now rewrite prop_spread_object.
Qed.

(** Step 5 when some source was found. *)
Lemma merge_with_defaults_spec c :
  undef_or_object (prop (VObj c) "backends") = true ->
  prop (VObj (merge_with_defaults c)) "backend" = prop (VObj c) "backend"
  /\ exists b',
      prop (VObj (merge_with_defaults c)) "backends" = VObj b'
      /\ forall n,
          prop (VObj b') n
          = if truthy (prop (prop (VObj c) "backends") n)
            then prop (prop (VObj c) "backends") n
            else if mem n defaultBackendNames then prop defaultBackends n
                 else prop (prop (VObj c) "backends") n.
Proof.
  intros Hc. unfold merge_with_defaults.
  set (c1 := if negb (truthy (prop (VObj c) "backends"))
             then assign "backends" (VObj []) c else c).
  assert (H1 : prop (VObj c1) "backend" = prop (VObj c) "backend"
               /\ exists b0, prop (VObj c1) "backends" = VObj b0
                             /\ forall n, prop (VObj b0) n = prop (prop (VObj c) "backends") n).
  { unfold c1. destruct (prop (VObj c) "backends") as [| | | | | |b0|] eqn:E; try discriminate Hc.
    - cbn [truthy negb]. rewrite !prop_assign. cbn. split; [reflexivity|].
      exists []. split; reflexivity.
    - cbn [truthy negb]. split; [reflexivity|]. exists b0. split; [exact E | reflexivity]. }
  destruct H1 as [Hbackend [b0 [Hb0 Hn0]]].
  rewrite Hb0.
  destruct (fill_backends defaultBackends defaultBackendNames b0) as [b' [Eb' Hb']].
  rewrite Eb'.
  set (c2 := assign "backends" (VObj b') c1).
  assert (H2 : prop (VObj c2) "backend" = prop (VObj c) "backend"
               /\ prop (VObj c2) "backends" = VObj b').
  { unfold c2. rewrite !prop_assign.
    change (String.eqb "backend" "backends") with false.
    change (String.eqb "backends" "backends") with true.
    split; [exact Hbackend | reflexivity]. }
  destruct H2 as [H2a H2b].
  assert (H3 : forall c3, c3 = (if negb (truthy (prop (VObj c2) "port"))
                                then assign "port" (prop getDefaultConfig "port") c2
                                else c2) ->
               prop (VObj c3) "backend" = prop (VObj c) "backend"
               /\ prop (VObj c3) "backends" = VObj b').
  { intros c3 ->. destruct (negb (truthy (prop (VObj c2) "port"))).
    - rewrite !prop_assign.
      change (String.eqb "backend" "port") with false.
      change (String.eqb "backends" "port") with false.
      split; [exact H2a | exact H2b].
    - split; [exact H2a | exact H2b]. }
  destruct (H3 _ eq_refl) as [H3a H3b].
  split; [exact H3a|]. exists b'. split; [exact H3b|].
  intros n. rewrite Hb', Hn0. reflexivity.
Qed.

(** [validateConfig] on a configuration whose active backend is there:
    only the active entry is validated. *)
Lemma validateConfig_active config name b :
  prop (VObj config) "backend" = VStr name -> name <> "" ->
  prop (VObj config) "backends" = VObj b ->
  truthy (prop (VObj b) name) = true ->
  validateConfig (VObj config) = validateBackend (VStr name) (prop (VObj b) name).
Proof.
  intros Hb Hne Hbs Ht. unfold validateConfig, get. cbn [bind].
  rewrite Hb, Hbs. cbn [truthy typeof_object negb orb].
  destruct (String.eqb name "") eqn:E.
  - apply String.eqb_eq in E. contradiction.
  - cbn [negb]. change (ToString (VStr name)) with (@Return string name). cbn [bind].
    cbv zeta. now rewrite (member_own _ _ Ht), Ht.
Qed.

End ConfigLoaderFacts.

(* ===================================================================== *)
(** * Configuration layering *)
(* ===================================================================== *)

Section Layering.

Import ConfigLoader.


Lemma truthy_mem k (ps : props) :
  truthy (prop (VObj ps) k) = true -> mem k (map fst ps) = true.
Proof. intros H. apply mem_defined. now apply truthy_defined. Qed.

(** An entry that [validateBackend] accepts is an object, hence truthy. *)
Lemma validateBackend_truthy name entry :
  validateBackend name entry = Return tt -> truthy entry = true.
Proof.
  unfold validateBackend. intros H. apply typed_truthy. intros E.
  destruct (nullish entry) eqn:N.
  - destruct entry; try discriminate N; discriminate H.
  - rewrite (get_defined _ _ N), E in H. cbn [bind truthy negb] in H.
    destruct (ToString name); discriminate H.
Qed.





End Layering.

(* ===================================================================== *)
(** * Validation in [load] *)
(* ===================================================================== *)

Section Validation.

Import ConfigLoader.

(** Whatever the sources hold, [load] validates a configuration whose
    [backends] is an object. *)
Lemma merged_config_backends env :
  exists b, prop (VObj (merged_config env)) "backends" = VObj b.
Proof.
  unfold merged_config.
  set (st0 := (@nil (string * value), false)).
  set (st1 := load_source st0 (globalConfig env)).
  set (st2 := load_source st1 (projectConfig env)).
  set (st3 := load_source st2 (LLM_BACKEND_CONFIG env)).
  assert (P3 : undef_or_object (prop (VObj (fst st3)) "backends") = true).
  { unfold st3, st2, st1. repeat apply load_source_plain. reflexivity. }
  destruct st3 as [c h]. cbn [fst] in P3.
  destruct h; cbn [negb].
  - destruct (merge_with_defaults_spec c P3) as [_ [b' [Hb' _]]]. now exists b'.
  - eexists. reflexivity.
Qed.

(** [validateConfig] on what [load] built, when the active name is
    truthy. *)
Lemma validateConfig_merged env :
  truthy (prop (VObj (merged_config env)) "backend") = true ->
  validateConfig (VObj (merged_config env))
  = let name := prop (VObj (merged_config env)) "backend" in
    key <- ToString name ;;
    let entry := member (prop (VObj (merged_config env)) "backends") key in
    if truthy entry then validateBackend name entry
    else Throw (Error ("Backend " ++ dquote ++ key ++ dquote
                       ++ " not found in backends configuration")).
Proof.
  intros Hname. destruct (merged_config_backends env) as [b Hb].
  unfold validateConfig. cbn [get bind]. cbv zeta.
  rewrite Hname, Hb. cbn [negb truthy typeof_object orb].
  destruct (ToString _) as [key|e]; cbn [bind]; [|reflexivity].
  now destruct (truthy (member (VObj b) key)).
Qed.

(** The same for a name that converts and has a truthy entry of its
    own. *)
Lemma validateConfig_entry env :
  let cfg := VObj (merged_config env) in
  let name := prop cfg "backend" in
  let entry := backendEntry cfg (to_string name) in
  truthy name = true -> converts name = true -> truthy entry = true ->
  validateConfig cfg = validateBackend name entry.
Proof.
  intros cfg name entry Hname Hc He.
  unfold cfg. rewrite (validateConfig_merged env Hname). cbv zeta.
  fold cfg. fold name. rewrite (ToString_converts _ Hc). cbn [bind].
  unfold entry, backendEntry in He |- *. now rewrite (member_own _ _ He), He.
Qed.

(** [validateBackend] on a truthy entry under a name that converts, case
    by case. *)
Lemma validateBackend_cases name entry :
  truthy entry = true -> converts name = true ->
  validateBackend name entry
  = let type := prop entry "type" in
    let refused tail := Throw (Error ("Backend " ++ dquote ++ to_string name ++ dquote
                                      ++ tail)) in
    if negb (truthy type) then refused " missing required field: type"
    else if is_str type "cerebras" then
      if truthy (prop entry "apiKey") then Return tt
      else refused " missing required field: apiKey"
    else if is_str type "self-hosted" then
      if truthy (prop entry "url") then Return tt
      else refused " missing required field: url"
    else
      text <- ToString type ;;
      refused (" has invalid type: " ++ text)%string.
Proof.
  intros Ht Hc. unfold validateBackend. rewrite (truthy_get _ _ Ht). cbn [bind]. cbv zeta.
  rewrite (ToString_converts _ Hc). cbn [bind].
  destruct (truthy (prop entry "type")); cbn [negb]; [|reflexivity].
  destruct (is_str (prop entry "type") "cerebras").
  - now destruct (truthy (prop entry "apiKey")).
  - destruct (is_str (prop entry "type") "self-hosted"); [|reflexivity].
    now destruct (truthy (prop entry "url")).
Qed.







End Validation.

(* ===================================================================== *)
(** * Permissions of a saved configuration *)
(* ===================================================================== *)

Section Saving.

Import ConfigLoader.

Lemma find_put_file path f fs : find_file path (put_file path f fs) = Some f.
Proof.
  induction fs as [|[p g] fs IH]; cbn [put_file find_file].
  - now rewrite String.eqb_refl.
  - destruct (String.eqb path p) eqn:E; cbn [find_file]; rewrite E; [reflexivity|exact IH].
Qed.

(** The callback of [some] on an entry that is an object. *)
Lemma secret_callback (backend : value) :
  nullish backend = false ->
  exists r,
    (apiKey <- get backend "apiKey" ;;
     if truthy apiKey then Return apiKey
     else
       password <- get backend "password" ;;
       if truthy password then Return password
       else get backend "token") = Return r
    /\ truthy r = ConfigLoader.secret_shaped backend.
Proof.
  intros Hn. unfold ConfigLoader.secret_shaped.
  assert (G : forall k, get backend k = Return (prop backend k)).
  { intros k. destruct backend; try discriminate Hn; reflexivity. }
  rewrite !G. cbn [bind].
  destruct (truthy (prop backend "apiKey")) eqn:E1.
  - eexists. split; [reflexivity | exact E1].
  - destruct (truthy (prop backend "password")) eqn:E2.
    + eexists. split; [reflexivity | exact E2].
    + eexists. split; [reflexivity | reflexivity].
Qed.

(** [configContainsSecrets] on a configuration whose backend entries are
    objects. *)
Lemma configContainsSecrets_spec (config : value) (bs : props) :
  prop config "backends" = VObj bs ->
  forallb (fun e => negb (nullish e)) (map snd bs) = true ->
  configContainsSecrets config = Return (existsb ConfigLoader.secret_shaped (map snd bs)).
Proof.
  intros Hb Hall. unfold configContainsSecrets.
  assert (G : get config "backends" = Return (VObj bs)).
  { destruct config; try discriminate Hb; cbn [get]; now rewrite Hb. }
  rewrite G. cbn [bind truthy negb values nullish own_entries].
  induction (map snd bs) as [|e es IH]; [reflexivity|].
  cbn [forallb] in Hall. apply andb_true_iff in Hall. destruct Hall as [He Hes].
  apply negb_true_iff in He.
  destruct (secret_callback e He) as [r [Er Hr]].
  cbn [some existsb]. rewrite Er, Hr.
  destruct (ConfigLoader.secret_shaped e); [reflexivity|]. now apply IH.
Qed.

(** The scan of [configContainsSecrets] passes over entries that are
    objects and hold no secret. *)
Lemma configContainsSecrets_scan (config : value) (bs : props) (before rest : list value) :
  prop config "backends" = VObj bs ->
  map snd bs = before ++ rest ->
  forallb (fun e => negb (nullish e)) before = true ->
  existsb ConfigLoader.secret_shaped before = false ->
  configContainsSecrets config
  = some (fun backend =>
            apiKey <- get backend "apiKey" ;;
            if truthy apiKey then Return apiKey
            else
              password <- get backend "password" ;;
              if truthy password then Return password
              else get backend "token")
         rest.
Proof.
  intros Hb Hsplit Hall Hnone. unfold configContainsSecrets.
  assert (G : get config "backends" = Return (VObj bs)).
  { destruct config; try discriminate Hb; cbn [get]; now rewrite Hb. }
  rewrite G. cbn [bind truthy negb values nullish own_entries]. rewrite Hsplit.
  clear Hsplit. induction before as [|e es IH]; [reflexivity|].
  cbn [forallb] in Hall. apply andb_true_iff in Hall. destruct Hall as [He Hes].
  apply negb_true_iff in He.
  cbn [existsb] in Hnone. apply orb_false_iff in Hnone. destruct Hnone as [Hs Hss].
  destruct (secret_callback e He) as [r [Er Hr]].
  cbn [app some]. rewrite Er, Hr, Hs. now apply IH.
Qed.

(** C9, what [save] does.  The file at [configPath] gets mode [0600] when
    the first entry of [backends] that is [null] or holds a secret (an
    [apiKey], a [password] or a [token]) holds a secret.  When no entry
    is [null] and none holds a secret, [save] only writes the file.  When
    an entry that is [null] comes before every entry that holds a secret,
    [save] writes the file, throws a [TypeError] while it looks for
    secrets and does not restrict the permissions, whatever the later
    entries hold. *)
Theorem save_restricts_permissions
  (config : value) (configPath : string) (fs : filesystem) (bs : props) :
  prop config "backends" = VObj bs ->
  (forall before e after,
      map snd bs = before ++ e :: after ->
      forallb (fun e => negb (nullish e)) before = true ->
      existsb ConfigLoader.secret_shaped before = false ->
      nullish e = false -> ConfigLoader.secret_shaped e = true ->
      snd (save config configPath fs) = Return tt
      /\ find_file configPath (files (fst (save config configPath fs)))
         = Some {| contents := config; mode := owner_read_write |})
  /\ (forallb (fun e => negb (nullish e)) (map snd bs) = true ->
      existsb ConfigLoader.secret_shaped (map snd bs) = false ->
      save config configPath fs = (writeJson configPath config fs, Return tt))
  /\ (forall before e after,
        map snd bs = before ++ e :: after ->
        forallb (fun e => negb (nullish e)) before = true ->
        existsb ConfigLoader.secret_shaped before = false ->
        nullish e = true ->
        save config configPath fs
        = (writeJson configPath config fs,
           Throw (TypeError ("Cannot read properties of " ++ to_string e
                             ++ " (reading 'apiKey')")))).
Proof.
  intros Hb. split; [|split].
  - intros before e after Hsplit Hall Hnone He Hs. unfold save.
    rewrite (configContainsSecrets_scan config bs before (e :: after) Hb Hsplit Hall Hnone).
    destruct (secret_callback e He) as [r [Er Hr]].
    cbn [some]. rewrite Er, Hr, Hs. cbn [fst snd]. split; [reflexivity|].
    unfold chmod, writeJson. cbn [files umask].
    rewrite find_put_file. cbn [files contents]. now rewrite find_put_file.
  - intros Hall Hnone. unfold save.
    now rewrite (configContainsSecrets_spec config bs Hb Hall), Hnone.
  - intros before e after Hsplit Hall Hnone He. unfold save.
    rewrite (configContainsSecrets_scan config bs before (e :: after) Hb Hsplit Hall Hnone).
    cbn [some]. destruct e; try discriminate He; reflexivity.
Qed.

(** The repository's permission test: a configuration with an API key,
    saved on an empty disk with umask 022, ends with mode 0600.  The same
    configuration with a [null] entry before the key: [save] throws, and
    the file with the key is left with mode 0644. *)
Lemma save_restricts_permissions_witness :
  (snd (save Scenarios.config_with_secrets "/home/u/.llm-proxy/config.json"
             Scenarios.empty_disk) = Return tt
   /\ find_file "/home/u/.llm-proxy/config.json"
        (files (fst (save Scenarios.config_with_secrets
                          "/home/u/.llm-proxy/config.json" Scenarios.empty_disk)))
      = Some {| contents := Scenarios.config_with_secrets; mode := 384 |})
  /\ save Scenarios.config_with_null_entry "/w/.llmrc.json" Scenarios.empty_disk
     = ({| files := [("/w/.llmrc.json",
                      {| contents := Scenarios.config_with_null_entry; mode := 420 |})];
           umask := 18 |},
        Throw (TypeError "Cannot read properties of null (reading 'apiKey')")).
Proof.
  split.
  - apply (proj1 (save_restricts_permissions
                    Scenarios.config_with_secrets "/home/u/.llm-proxy/config.json"
                    Scenarios.empty_disk _ eq_refl)
             [] (VObj [("type", VStr "cerebras"); ("apiKey", VStr "secret-key")]) []);
      reflexivity.
  - apply (proj2 (proj2 (save_restricts_permissions
                           Scenarios.config_with_null_entry "/w/.llmrc.json"
                           Scenarios.empty_disk _ eq_refl))
             [] VNull [VObj [("type", VStr "cerebras"); ("apiKey", VStr "secret-key")]]);
      reflexivity.
Defined.

End Saving.

(* ===================================================================== *)
(** * The managed-cloud (cerebras) strategy *)
(* ===================================================================== *)

Section Cerebras.

Import CerebrasStrategy.




(** C5. The claim fails where the provider's own error text carries the
    key: [handleError] copies that text into the message.  With a 401
    whose body quotes the bearer token it was sent, the thrown error's
    message contains the configured API key. *)
Theorem handleError_repeats_provider_text :
  executeRequest Scenarios.provider_quotes_key Scenarios.cloud_long_key
                 Scenarios.hello (VObj [])
  = Throw (Error ("Cerebras API authentication failed: Invalid credentials: Bearer "
                  ++ Scenarios.long_key
                  ++ ". Please check your API key configuration."))
  /\ includes ("Cerebras API authentication failed: Invalid credentials: Bearer "
               ++ Scenarios.long_key
               ++ ". Please check your API key configuration.")
              (to_string (apiKey Scenarios.cloud_long_key)) = true.
Proof. split; reflexivity. Qed.

End Cerebras.

(* ===================================================================== *)
(** * The factory *)
(* ===================================================================== *)

Section Factory.

Import BackendFactory.

(** C7, as the code has it.  [createStrategy] dispatches on [config.type]:
    [cerebras] with a non-blank [apiKey] gives an instance of the
    managed-cloud (cerebras) strategy; [self-hosted] with a non-blank
    [url] that the platform parses gives an instance of the self-hosted
    strategy; a missing [type] throws the missing-type error; any other
    [type] throws an error whose message names that type and which
    carries the supported type names in its [supportedTypes] property,
    not in its message.  The message is built by converting the type to a
    string: for a type that has no string form, that conversion throws
    its [TypeError] instead. *)
Theorem createStrategy_dispatch (w : world) (config : value) :
  (forall key,
      is_str (prop config "type") "cerebras" = true ->
      prop config "apiKey" = VStr key -> trim key <> "" ->
      createStrategy w config
      = Return (Cerebras
                  {| CerebrasStrategy.apiKey := VStr key;
                     CerebrasStrategy.apiUrl :=
                       js_or (prop config "apiUrl") (VStr "https://api.cerebras.ai/v1") |}))
  /\ (forall url,
        is_str (prop config "type") "self-hosted" = true ->
        prop config "url" = VStr url -> trim url <> "" ->
        URL_parses w url = true ->
        createStrategy w config
        = Return (SelfHosted
                    {| SelfHostedStrategy.url := VStr url;
                       SelfHostedStrategy.description :=
                         js_or (prop config "description") (VStr "Self-hosted proxy") |}))
  /\ (truthy (prop config "type") = false ->
      createStrategy w config
      = Throw (Error "Backend configuration missing required field: type"))
  /\ (truthy (prop config "type") = true ->
      is_str (prop config "type") "cerebras" = false ->
      is_str (prop config "type") "self-hosted" = false ->
      prints (prop config "type") = true ->
      createStrategy w config
      = Throw (VErr "Error" ("Unknown backend type: " ++ to_string (prop config "type"))
                    [("supportedTypes", VArr [VStr "cerebras"; VStr "self-hosted"])]))
  /\ (truthy (prop config "type") = true ->
      converts (prop config "type") = false ->
      createStrategy w config
      = Throw (TypeError "Cannot convert object to primitive value")).
Proof.
  assert (Typed : truthy (prop config "type") = true -> truthy config = true).
  { intros H. apply typed_truthy. now apply truthy_defined. }
  assert (Lit : forall lit, lit <> "" -> is_str (prop config "type") lit = true ->
                            truthy (prop config "type") = true).
  { intros lit Hlit H. destruct (prop config "type"); try discriminate H.
    cbn in H. apply String.eqb_eq in H. subst. cbn.
    destruct (String.eqb lit "") eqn:E; [|reflexivity].
    apply String.eqb_eq in E. contradiction. }
  assert (Blank : forall s, trim s <> "" -> String.eqb s "" = false
                                            /\ String.eqb (trim s) "" = false).
  { intros s H. split.
    - destruct (String.eqb s "") eqn:E; [|reflexivity].
      apply String.eqb_eq in E. subst. now elim H.
    - destruct (String.eqb (trim s) "") eqn:E; [|reflexivity].
      apply String.eqb_eq in E. contradiction. }
  split; [|split; [|split; [|split]]].
  - intros key Htype Hkey Hblank.
    assert (Ht : truthy (prop config "type") = true) by (apply (Lit "cerebras"); easy).
    destruct (Blank _ Hblank) as [B1 B2].
    unfold createStrategy. rewrite (Typed Ht), Ht, Htype. cbn [negb orb].
    unfold CerebrasStrategy.new, CerebrasStrategy.validateConfig.
    rewrite (truthy_get _ _ (Typed Ht)), Hkey. cbn [bind truthy call_trim].
    rewrite B1. cbn [negb bind]. now rewrite B2.
  - intros url Htype Hurl Hblank Hparse.
    assert (Ht : truthy (prop config "type") = true) by (apply (Lit "self-hosted"); easy).
    assert (Hc : is_str (prop config "type") "cerebras" = false).
    { destruct (prop config "type"); try discriminate Htype.
      cbn in Htype |- *. apply String.eqb_eq in Htype. now subst. }
    destruct (Blank _ Hblank) as [B1 B2].
    unfold createStrategy. rewrite (Typed Ht), Ht, Hc, Htype. cbn [negb orb].
    unfold SelfHostedStrategy.new, SelfHostedStrategy.validateConfig.
    rewrite (truthy_get _ _ (Typed Ht)), Hurl. cbn [bind truthy call_trim to_string].
    rewrite B1. cbn [negb bind]. now rewrite B2, Hparse.
  - intros Ht. unfold createStrategy. rewrite Ht. cbn [negb].
    now rewrite orb_true_r.
  - intros Ht Hc Hs Hp. unfold createStrategy.
    now rewrite (Typed Ht), Ht, Hc, Hs, (ToString_prints _ Hp).
  - intros Ht Hc. unfold createStrategy. rewrite (Typed Ht), Ht. cbn [negb orb].
    assert (N : forall lit, is_str (prop config "type") lit = false).
    { intros lit. destruct (prop config "type"); try reflexivity. discriminate Hc. }
    now rewrite !N, (ToString_unconvertible _ Hc).
Qed.

(** The four configurations of P5 of the specification, and a type that
    has no string form. *)
Lemma createStrategy_dispatch_witness :
  createStrategy Scenarios.offline Scenarios.cloud_config
  = Return (Cerebras {| CerebrasStrategy.apiKey := VStr "x";
                        CerebrasStrategy.apiUrl := VStr "https://api.cerebras.ai/v1" |})
  /\ createStrategy Scenarios.offline Scenarios.self_hosted_config
     = Return (SelfHosted {| SelfHostedStrategy.url := VStr "http://h:1";
                             SelfHostedStrategy.description := VStr "Self-hosted proxy" |})
  /\ createStrategy Scenarios.offline (VObj [])
     = Throw (Error "Backend configuration missing required field: type")
  /\ createStrategy Scenarios.offline Scenarios.unknown_config
     = Throw (VErr "Error" "Unknown backend type: unknown"
                   [("supportedTypes", VArr [VStr "cerebras"; VStr "self-hosted"])])
  /\ createStrategy Scenarios.offline Scenarios.odd_type_config
     = Throw (TypeError "Cannot convert object to primitive value").
Proof.
  split; [|split; [|split; [|split]]].
  - apply (proj1 (createStrategy_dispatch Scenarios.offline Scenarios.cloud_config) "x");
      [reflexivity | reflexivity | discriminate].
  - apply (proj1 (proj2 (createStrategy_dispatch
                           Scenarios.offline Scenarios.self_hosted_config)) "http://h:1");
      [reflexivity | reflexivity | discriminate | reflexivity].
  - apply (proj1 (proj2 (proj2 (createStrategy_dispatch Scenarios.offline (VObj [])))));
      reflexivity.
  - apply (proj1 (proj2 (proj2 (proj2 (createStrategy_dispatch
                                         Scenarios.offline Scenarios.unknown_config)))));
      reflexivity.
  - apply (proj2 (proj2 (proj2 (proj2 (createStrategy_dispatch
                                         Scenarios.offline Scenarios.odd_type_config)))));
      reflexivity.
Defined.

(** C7 as the specification states it fails on the unknown type of P5:
    the message of the thrown error lists neither supported type name.
    And for a type without a string form no such error is built: the
    conversion throws. *)
Lemma unknown_type_message_lists_no_type :
  createStrategy Scenarios.offline Scenarios.unknown_config
  = Throw (VErr "Error" "Unknown backend type: unknown"
                [("supportedTypes", VArr [VStr "cerebras"; VStr "self-hosted"])])
  /\ includes "Unknown backend type: unknown" "cerebras" = false
  /\ includes "Unknown backend type: unknown" "self-hosted" = false
  /\ createStrategy Scenarios.offline Scenarios.odd_type_config
     = Throw (TypeError "Cannot convert object to primitive value").
Proof. split; [|split; [|split]]; reflexivity. Qed.

End Factory.

(* ===================================================================== *)
(** * The route handlers *)
(* ===================================================================== *)

Section Routes.

Import ProxyServer.

(** C8, what the handler does.  A [POST /v1/messages] whose body has no
    [messages], or whose [messages] is not an array, or is the empty
    array, never reaches [executeRequest] of the active strategy.  When
    there is a body, it is answered with status 400 and an error that
    mentions the messages field.  When there is none ([undefined] or
    [null]), reading [messages] from it throws, and the handler's [catch]
    answers 500 with the text of that [TypeError]. *)
Theorem messages_rejects_bad_body (srv : server) (body : value) :
  truthy (prop body "messages") = false
  \/ isArray (prop body "messages") = false
  \/ prop body "messages" = VArr [] ->
  snd (messages srv body) = []
  /\ (nullish body = false ->
      fst (messages srv body)
      = {| statusCode := 400; payload := VObj [("error", VStr messages_required)] |}
      /\ Schema.mentions messages_required "messages" = true)
  /\ (nullish body = true ->
      fst (messages srv body)
      = {| statusCode := 500;
           payload := VObj [
             ("error",
              VStr ("Cannot destructure property 'messages' of 'request.body' as it is "
                    ++ to_string body ++ "."));
             ("recommendations",
              strings ["Check backend configuration";
                       "Try switching to a different backend"]) ] |}).
Proof.
  intros Hbad. unfold messages. destruct (nullish body) eqn:Hbody.
  - split; [reflexivity|]. split; [intros H; discriminate H|]. intros _. reflexivity.
  - assert (E : negb (truthy (prop body "messages"))
                || negb (isArray (prop body "messages"))
                || is_num (prop (prop body "messages") "length") 0 = true).
    { destruct Hbad as [H | [H | H]]; rewrite H; try reflexivity.
      cbn [negb]. now rewrite orb_true_r. }
    rewrite E. split; [reflexivity|]. split; [|intros H; discriminate H].
    intros _. split; reflexivity.
Qed.

(** The three bodies of P6 of the specification, sent to a server whose
    strategy would answer, and a request without a body. *)
Lemma messages_rejects_bad_body_witness :
  let srv := Scenarios.serving (Scenarios.answering (VStr "unused")) in
  let refused :=
    ({| statusCode := 400; payload := VObj [("error", VStr messages_required)] |},
     @nil (value * value)) in
  messages srv (VObj []) = refused
  /\ messages srv (VObj [("messages", VArr [])]) = refused
  /\ messages srv (VObj [("messages", VStr "not-an-array")]) = refused
  /\ fst (messages srv VUndef)
     = {| statusCode := 500;
          payload := VObj [
            ("error",
             VStr "Cannot destructure property 'messages' of 'request.body' as it is undefined.");
            ("recommendations",
             strings ["Check backend configuration";
                      "Try switching to a different backend"]) ] |}.
Proof.
  intros srv refused.
  assert (Refused : forall body,
             nullish body = false ->
             truthy (prop body "messages") = false
             \/ isArray (prop body "messages") = false
             \/ prop body "messages" = VArr [] ->
             messages srv body = refused).
  { intros body Hbody Hbad.
    destruct (messages_rejects_bad_body srv body Hbad) as [Hcalls [Hreply _]].
    destruct (Hreply Hbody) as [Hr _].
    destruct (messages srv body) as [r calls]. cbn [fst snd] in Hcalls, Hr.
    now rewrite Hcalls, Hr. }
  split; [|split; [|split]].
  - apply Refused; [reflexivity | left; reflexivity].
  - apply Refused; [reflexivity | right; right; reflexivity].
  - apply Refused; [reflexivity | right; left; reflexivity].
  - apply (proj2 (proj2 (messages_rejects_bad_body srv VUndef (or_introl eq_refl))));
      reflexivity.
Defined.

(** C6, what the handler does on a server that is not listening, as the
    tests drive it.  [GET /health] answers 200 in all three cases.
    Without a [checkHealth] method the report is [healthy] and has no
    [backendHealth].  When [checkHealth] throws an error, the report is
    [degraded] and [backendHealth] is an [unhealthy] record with the
    error's message.  When [checkHealth] returns, the report stays
    [healthy] whatever was returned, an [unhealthy] result included, and
    [backendHealth] is that result.  On a server that listens, reading the
    port throws before any of this, and the answer is 500. *)
Theorem health_report (now : value) (srv : server) (s : Strategy) (backend : value) :
  get (config srv) "backend" = Return backend ->
  currentStrategy srv = Some s ->
  let report := [ ("status", VStr "healthy"); ("timestamp", now);
                  ("backend", backend); ("port", VNull) ] in
  (truthy (this_server srv) = false ->
   (checkHealth s = None ->
    health now srv = {| statusCode := 200; payload := VObj report |})
   /\ (forall error,
         checkHealth s = Some (Throw error) -> nullish error = false ->
         health now srv
         = {| statusCode := 200;
              payload := VObj [ ("status", VStr "degraded"); ("timestamp", now);
                                ("backend", backend); ("port", VNull);
                                ("backendHealth",
                                 VObj [("status", VStr "unhealthy");
                                       ("error", prop error "message")]) ] |})
   /\ (forall backendHealth,
         checkHealth s = Some (Return backendHealth) ->
         health now srv
         = {| statusCode := 200;
              payload := VObj [ ("status", VStr "healthy"); ("timestamp", now);
                                ("backend", backend); ("port", VNull);
                                ("backendHealth", backendHealth) ] |}))
  /\ (truthy (this_server srv) = true ->
      health now srv
      = {| statusCode := 500;
           payload := VObj [("statusCode", VNum 500);
                            ("error", VStr "Internal Server Error");
                            ("message", VStr "this.server.address is not a function")] |}).
Proof.
  intros Hbackend Hs report. unfold health, listening_port. rewrite Hbackend.
  cbn [bind]. split; intros Hserver; rewrite Hserver; cbn [bind]; [|reflexivity].
  rewrite Hs. split; [|split].
  - intros H. now rewrite H.
  - intros error H Herr. rewrite H, (get_defined _ _ Herr). reflexivity.
  - intros backendHealth H. now rewrite H.
Qed.

(** Scenario C behind the server: the self-hosted backend is unreachable,
    its [checkHealth] returns the [unhealthy] record, and [GET /health]
    answers 200 with overall status [healthy]. *)
Lemma health_report_witness :
  checkHealth (instantiate Scenarios.offline (BackendFactory.SelfHosted Scenarios.unreachable))
  = Some (Return (VObj [("status", VStr "unhealthy");
                        ("error", VStr "Cannot connect to proxy");
                        ("endpoint", VStr "http://localhost:9999")]))
  /\ health (VStr "2025-01-01T00:00:00.000Z")
            (Scenarios.server_with Scenarios.offline
                                   (BackendFactory.SelfHosted Scenarios.unreachable))
     = {| statusCode := 200;
          payload := VObj [ ("status", VStr "healthy");
                            ("timestamp", VStr "2025-01-01T00:00:00.000Z");
                            ("backend", VStr "self-hosted");
                            ("port", VNull);
                            ("backendHealth",
                             VObj [("status", VStr "unhealthy");
                                   ("error", VStr "Cannot connect to proxy");
                                   ("endpoint", VStr "http://localhost:9999")]) ] |}.
Proof.
  split; [reflexivity|].
  apply (proj2 (proj2 (proj1 (health_report
                         (VStr "2025-01-01T00:00:00.000Z")
                         (Scenarios.server_with Scenarios.offline
                            (BackendFactory.SelfHosted Scenarios.unreachable))
                         _ (VStr "self-hosted") eq_refl eq_refl) eq_refl))).
  reflexivity.
Defined.

End Routes.

(* ===================================================================== *)
(** * The outcomes of [executeRequest] *)
(* ===================================================================== *)

Section RequestOutcomes.

Import BackendFactory Outcomes.







Lemma gives_returned {A : Type} (P : A -> Prop) (Q : value -> Prop) c r :
  gives P Q c -> c = Return r -> P r.
Proof. intros H ->. exact H. Qed.









(** ** The cerebras strategy *)






(** The envelope matches the specification's schema as soon as the
    provider supplied the four fields that are copied from its response. *)
Lemma envelope_normalized v :
  envelope v = true ->
  Schema.defined (prop v "id") = true ->
  Schema.defined (prop v "model") = true ->
  Schema.defined (prop v "stop_reason") = true ->
  (forall block, prop v "content" = VArr [block] ->
                 Schema.defined (prop block "text") = true) ->
  Schema.NormalizedResponse v = true.
Proof.
  unfold envelope. intros H Hid Hmodel Hstop Htext.
  repeat (apply andb_true_iff in H; let H' := fresh "E" in destruct H as [H H']).
  destruct v as [| | | | | |ps|]; try discriminate H.
  unfold Schema.NormalizedResponse, Schema.text_block, Schema.has_key.
  rewrite Hid, Hmodel, Hstop, E, E0, E4, E5.
  destruct (prop (VObj ps) "content") as [| | | | |[|block [|]]| |] eqn:Ec;
    try discriminate E3.
  apply andb_true_iff in E3. destruct E3 as [_ Eb].
  cbn [forallb]. rewrite Eb, (Htext block eq_refl).
  cbn [own_entries prop] in E2 |- *.
  destruct (lookup "stop_sequence" ps); [reflexivity | discriminate E2].
Qed.

(** ** The self-hosted strategy *)











End RequestOutcomes.

(* ===================================================================== *)
(** * More about [load] *)
(* ===================================================================== *)

Section LoadExtras.

Import ConfigLoader Facts.

(** The state of [load] after the three sources. *)
Lemma sources_plain env :
  undef_or_object
    (prop (VObj (fst (load_source
                        (load_source (load_source ([], false) (globalConfig env))
                                     (projectConfig env))
                        (LLM_BACKEND_CONFIG env)))) "backends") = true.
Proof. repeat apply load_source_plain. reflexivity. Qed.

Lemma merged_config_unfold env :
  merged_config env
  = let st := load_source
                (load_source (load_source ([], false) (globalConfig env))
                             (projectConfig env))
                (LLM_BACKEND_CONFIG env) in
    if negb (snd st) then spread [] getDefaultConfig
    else merge_with_defaults (fst st).
Proof. unfold merged_config. cbv zeta. now destruct (load_source _ _). Qed.

(** An object merged on top of any configuration, then the defaults: the
    object's [backend] and every truthy entry of its [backends] are in the
    result as they are. *)
Lemma top_object (c o ob : props) :
  undef_or_object (prop (VObj c) "backends") = true ->
  prop (VObj o) "backends" = VObj ob ->
  let m := merge_with_defaults
             (fold_left (merge_key (VObj o)) (map fst o) (spread [] (VObj c))) in
  prop (VObj m) "backend"
  = (if mem "backend" (map fst o) then prop (VObj o) "backend"
     else prop (VObj c) "backend")
  /\ exists b',
      prop (VObj m) "backends" = VObj b'
      /\ forall n, truthy (prop (VObj ob) n) = true ->
                   prop (VObj b') n = prop (VObj ob) n.
Proof.
  intros Hc Hob m.
  destruct (merge_object c o Hc) as [P [S B]].
  destruct (merge_with_defaults_spec _ P) as [Hbackend [b' [Hb' Hn]]].
  split.
  - unfold m. rewrite Hbackend. now apply S.
  - exists b'. split; [exact Hb'|]. intros n Ht.
    rewrite Hn, B, Hob. cbn [own_entries].
    assert (M : mem "backends" (map fst o) = true).
    { apply mem_defined. rewrite Hob. discriminate. }
    rewrite M, (truthy_mem _ _ Ht). now rewrite Ht.
Qed.

(** The environment variable has the last word.  Whatever the global and
    the project file hold (nothing, something unreadable, any JSON value),
    an override object that names a backend [E] and defines a valid entry
    for it makes [load] return a configuration with [E] active, in which
    every entry the override defines is the override's whole definition. *)
Theorem load_environment_overrides
  (global project : source) (e eb : props) (E : string) :
  prop (VObj e) "backend" = VStr E ->
  E <> "" ->
  prop (VObj e) "backends" = VObj eb ->
  validateBackend (VStr E) (prop (VObj eb) E) = Return tt ->
  exists cfg,
    load {| globalConfig := global; projectConfig := project;
            LLM_BACKEND_CONFIG := Found (VObj e) |} = Return cfg
    /\ prop cfg "backend" = VStr E
    /\ backendEntry cfg E = prop (VObj eb) E
    /\ forall n, truthy (prop (VObj eb) n) = true ->
                 backendEntry cfg n = prop (VObj eb) n.
Proof.
  intros He HE Heb Hvalid.
  pose proof (validateBackend_truthy _ _ Hvalid) as HtE.
  set (env := {| globalConfig := global; projectConfig := project;
                 LLM_BACKEND_CONFIG := Found (VObj e) |}).
  set (st2 := load_source (load_source ([], false) global) project).
  assert (P2 : undef_or_object (prop (VObj (fst st2)) "backends") = true).
  { unfold st2. repeat apply load_source_plain. reflexivity. }
  assert (Em : merged_config env
               = merge_with_defaults
                   (fold_left (merge_key (VObj e)) (map fst e)
                              (spread [] (VObj (fst st2))))).
  { rewrite merged_config_unfold. cbn [globalConfig projectConfig LLM_BACKEND_CONFIG env].
    fold st2. destruct st2 as [c2 h2]. now rewrite load_source_found. }
  destruct (top_object (fst st2) e eb P2 Heb) as [Hbackend [b' [Hb' Hn]]].
  rewrite <- Em in Hbackend, Hb'.
  assert (M : mem "backend" (map fst e) = true).
  { apply mem_defined. rewrite He. discriminate. }
  rewrite M, He in Hbackend.
  exists (VObj (merged_config env)). unfold backendEntry. rewrite Hb'.
  split; [|split; [exact Hbackend | split; [now apply Hn | exact Hn]]].
  unfold load. fold env.
  rewrite (validateConfig_active _ E b' Hbackend HE Hb').
  - rewrite (Hn E HtE), Hvalid. reflexivity.
  - now rewrite (Hn E HtE).
Qed.

(** The repository's test of the override, with a global and a project
    file below it. *)
Lemma load_environment_overrides_witness :
  exists cfg,
    load MoreScenarios.all_three = Return cfg
    /\ prop cfg "backend" = VStr "env-backend"
    /\ prop (backendEntry cfg "env-backend") "url" = VStr "http://env:8000".
Proof.
  destruct (load_environment_overrides
              (Found Scenarios.global_config) (Found Scenarios.project_config)
              _ _ "env-backend"
              (eq_refl : prop MoreScenarios.env_override "backend" = _)
              ltac:(discriminate)
              (eq_refl : prop MoreScenarios.env_override "backends" = VObj _)
              eq_refl)
    as [cfg [H1 [H2 [H3 _]]]].
  exists cfg. split; [exact H1 | split; [exact H2 | now rewrite H3]].
Defined.

Lemma default_entries_truthy n :
  mem n defaultBackendNames = true -> truthy (prop defaultBackends n) = true.
Proof.
  unfold mem, defaultBackendNames. cbn [defaultBackends getDefaultConfig prop lookup
    String.eqb Ascii.eqb Bool.eqb own_entries map fst existsb].
  intros H.
  repeat (apply orb_true_iff in H; destruct H as [H|H];
          [apply String.eqb_eq in H; subst n; reflexivity|]).
  discriminate H.
Qed.

Lemma merge_with_defaults_port c :
  truthy (prop (VObj (merge_with_defaults c)) "port") = true.
Proof.
  unfold merge_with_defaults. cbv zeta.
  match goal with
  | |- context [if negb (truthy (prop (VObj ?c2) "port")) then _ else _] =>
      destruct (truthy (prop (VObj c2) "port")) eqn:E; cbn [negb]
  end.
  - exact E.
  - now rewrite prop_assign.
Qed.

(** What [load] returns is ready to use: it has a port, and it has an
    entry for each of the built-in backend names, whatever the files
    defined. *)
Theorem load_completes_configuration (env : sources) (cfg : value) :
  load env = Return cfg ->
  truthy (prop cfg "port") = true
  /\ forall n, mem n defaultBackendNames = true ->
               truthy (backendEntry cfg n) = true.
Proof.
  unfold load. destruct (validateConfig _); cbn [bind]; [|discriminate].
  intros H. injection H as <-. rewrite merged_config_unfold. cbv zeta.
  set (st := load_source _ _). pose proof (sources_plain env) as P. fold st in P.
  destruct (snd st); cbn [negb].
  - split; [apply merge_with_defaults_port|].
    intros n Hn. unfold backendEntry.
    destruct (merge_with_defaults_spec _ P) as [_ [b' [-> Hb']]].
    rewrite Hb', Hn.
    destruct (truthy (prop (prop (VObj (fst st)) "backends") n)) eqn:E; [exact E|].
    now apply default_entries_truthy.
  - split; [reflexivity|]. intros n Hn.
    now apply default_entries_truthy.
Qed.

Lemma load_completes_configuration_witness :
  truthy (prop Scenarios.invalid_url_loaded "port") = true
  /\ forall n, mem n defaultBackendNames = true ->
               truthy (backendEntry Scenarios.invalid_url_loaded n) = true.
Proof.
  apply (load_completes_configuration
           (Scenarios.project_only Scenarios.invalid_url_config)).
  reflexivity.
Defined.

Lemma validateConfig_no_backend env :
  truthy (prop (VObj (merged_config env)) "backend") = false ->
  validateConfig (VObj (merged_config env))
  = Throw (Error "Missing required field: backend").
Proof. intros H. unfold validateConfig. cbn [get bind]. now rewrite H. Qed.

Lemma is_str_exclusive v a b :
  is_str v a = true -> String.eqb a b = false -> is_str v b = false.
Proof.
  destruct v; try discriminate. cbn. intros H. apply String.eqb_eq in H. now subst.
Qed.

(** What [validateBackend] accepts has a type. *)
Lemma validateBackend_typed name entry :
  validateBackend name entry = Return tt -> truthy (prop entry "type") = true.
Proof.
  intros H. pose proof (validateBackend_truthy _ _ H) as Ht.
  unfold validateBackend in H. rewrite (truthy_get _ _ Ht) in H. cbn [bind] in H.
  destruct (truthy (prop entry "type")); [reflexivity|].
  cbn [negb] in H. destruct (ToString name); discriminate H.
Qed.

(** A configuration that [validateConfig] accepts, read backwards: the
    active name is truthy and converts, and the entry that was validated
    is an own property of [backends]. *)
Lemma validated_entry env :
  validateConfig (VObj (merged_config env)) = Return tt ->
  let cfg := VObj (merged_config env) in
  let name := prop cfg "backend" in
  let entry := backendEntry cfg (to_string name) in
  truthy name = true /\ converts name = true /\ truthy entry = true
  /\ member (prop cfg "backends") (to_string name) = entry
  /\ validateBackend name entry = Return tt.
Proof.
  intros V. cbv zeta.
  destruct (truthy (prop (VObj (merged_config env)) "backend")) eqn:Hname.
  2:{ rewrite (validateConfig_no_backend env Hname) in V. discriminate V. }
  rewrite (validateConfig_merged env Hname) in V. cbv zeta in V.
  destruct (ToString_cases (prop (VObj (merged_config env)) "backend"))
    as [[Hc E]|[_ E]]; rewrite E in V; cbn [bind] in V; [|discriminate V].
  destruct (truthy (member _ _)) eqn:Hm; [|discriminate V].
  pose proof (member_typed _ _ (validateBackend_typed _ _ V)) as Own.
  unfold backendEntry. rewrite Own in V, Hm. now repeat split.
Qed.

Lemma loaded_valid (env : sources) (cfg : value) :
  load env = Return cfg ->
  let name := prop cfg "backend" in
  let entry := backendEntry cfg (to_string name) in
  truthy name = true
  /\ truthy entry = true
  /\ BackendFactory.isSupported (prop entry "type") = true
  /\ (is_str (prop entry "type") "cerebras" = true ->
      truthy (prop entry "apiKey") = true)
  /\ (is_str (prop entry "type") "self-hosted" = true ->
      truthy (prop entry "url") = true).
Proof.
  unfold load. intros H.
  destruct (validateConfig (VObj (merged_config env))) as [[]|e] eqn:V;
    cbn [bind] in H; [|discriminate H].
  injection H as <-. cbv zeta.
  destruct (validated_entry env V) as [Hname [Hc [Hentry [_ B]]]]. cbv zeta in *.
  rewrite Hname, Hentry.
  rewrite (validateBackend_cases _ _ Hentry Hc) in B. cbv zeta in B.
  unfold BackendFactory.isSupported, BackendFactory.getSupportedTypes. cbn [existsb].
  destruct (truthy (prop _ "type")); cbn [negb] in B; [|discriminate B].
  destruct (is_str _ "cerebras") eqn:Ec.
  - destruct (truthy (prop _ "apiKey")); [|discriminate B].
    rewrite (is_str_exclusive _ _ "self-hosted" Ec eq_refl).
    repeat split; try reflexivity. intros F. discriminate F.
  - destruct (is_str _ "self-hosted") eqn:Es.
    2:{ destruct (ToString _); discriminate B. }
    destruct (truthy (prop _ "url")); [|discriminate B].
    repeat split; try reflexivity. intros F. discriminate F.
Qed.

(** In a configuration that [load] returns, the active name converts
    and the active entry is an own property of [backends]. *)
Lemma loaded_entry (env : sources) (cfg : value) :
  load env = Return cfg ->
  let name := prop cfg "backend" in
  converts name = true
  /\ member (prop cfg "backends") (to_string name) = backendEntry cfg (to_string name).
Proof.
  unfold load. intros H.
  destruct (validateConfig (VObj (merged_config env))) as [[]|e] eqn:V;
    cbn [bind] in H; [|discriminate H].
  injection H as <-. cbv zeta.
  destruct (validated_entry env V) as [_ [Hc [_ [Hm _]]]]. now split.
Qed.

(** A configuration that [load] returns is valid: its active name is
    truthy and has an entry, whose type is one the factory supports and
    whose required field ([apiKey] for cerebras, [url] for self-hosted) is
    truthy. *)
Theorem load_returns_valid (env : sources) (cfg : value) :
  load env = Return cfg ->
  let name := prop cfg "backend" in
  let entry := backendEntry cfg (to_string name) in
  truthy name = true
  /\ truthy entry = true
  /\ BackendFactory.isSupported (prop entry "type") = true
  /\ (is_str (prop entry "type") "cerebras" = true ->
      truthy (prop entry "apiKey") = true)
  /\ (is_str (prop entry "type") "self-hosted" = true ->
      truthy (prop entry "url") = true).
Proof. exact (loaded_valid env cfg). Qed.

Lemma load_returns_valid_witness :
  truthy (prop Scenarios.invalid_url_loaded "backend") = true
  /\ truthy (backendEntry Scenarios.invalid_url_loaded "local") = true
  /\ BackendFactory.isSupported
       (prop (backendEntry Scenarios.invalid_url_loaded "local") "type") = true.
Proof.
  destruct (load_returns_valid
              (Scenarios.project_only Scenarios.invalid_url_config)
              Scenarios.invalid_url_loaded eq_refl) as [H1 [H2 [H3 _]]].
  split; [exact H1 | split; [exact H2 | exact H3]].
Defined.

(** The other rejections of [load], for sources without a key
    [__proto__].  With no truthy [backend] after the merge it throws the
    missing-backend error.  For an active name whose text the model has:
    when the active entry has no [type] it throws the missing-type error;
    when the active entry's type is not one of the supported ones it
    throws the invalid-type error, which quotes the type, or the
    conversion's [TypeError] when the type has no string form. *)
Theorem load_rejects_untyped_active_backend (env : sources) :
  no_proto_keys env = true ->
  let cfg := VObj (merged_config env) in
  let name := prop cfg "backend" in
  let entry := backendEntry cfg (to_string name) in
  (truthy name = false ->
   load env = Throw (Error "Missing required field: backend"))
  /\ (truthy name = true -> prints name = true -> truthy entry = true ->
      truthy (prop entry "type") = false ->
      load env = Throw (Error ("Backend " ++ dquote ++ to_string name ++ dquote
                               ++ " missing required field: type")))
  /\ (truthy name = true -> prints name = true -> truthy entry = true ->
      BackendFactory.isSupported (prop entry "type") = false ->
      truthy (prop entry "type") = true ->
      (prints (prop entry "type") = true ->
       load env = Throw (Error ("Backend " ++ dquote ++ to_string name ++ dquote
                                ++ " has invalid type: "
                                ++ to_string (prop entry "type"))))
      /\ (converts (prop entry "type") = false ->
          load env = Throw (TypeError "Cannot convert object to primitive value"))).
Proof.
  intros _ cfg name entry. split; [|split].
  - intros H. unfold load. now rewrite (validateConfig_no_backend env H).
  - intros Hname Hp Hentry Htype. unfold load.
    rewrite (validateConfig_entry env Hname (prints_converts _ Hp) Hentry).
    fold cfg name entry.
    rewrite (validateBackend_cases _ _ Hentry (prints_converts _ Hp)). cbv zeta.
    now rewrite Htype.
  - intros Hname Hp Hentry Hsup Htype.
    assert (E : load env
                = (text <- ToString (prop entry "type") ;;
                   Throw (Error ("Backend " ++ dquote ++ to_string name ++ dquote
                                 ++ " has invalid type: " ++ text)))).
    { unfold load.
      rewrite (validateConfig_entry env Hname (prints_converts _ Hp) Hentry).
      fold cfg name entry.
      rewrite (validateBackend_cases _ _ Hentry (prints_converts _ Hp)). cbv zeta.
      rewrite Htype. cbn [negb].
      unfold BackendFactory.isSupported, BackendFactory.getSupportedTypes in Hsup.
      cbn [existsb] in Hsup. rewrite orb_false_r in Hsup.
      apply orb_false_iff in Hsup. destruct Hsup as [-> ->].
      now destruct (ToString (prop entry "type")). }
    split; intros Ht; rewrite E.
    + now rewrite (ToString_prints _ Ht).
    + now rewrite (ToString_unconvertible _ Ht).
Qed.

(** tests/unit/config-loader.test.js, "should validate required fields",
    and an active entry of an unknown type. *)
Lemma load_rejects_untyped_active_backend_witness :
  load (Scenarios.project_only MoreScenarios.no_active_backend)
  = Throw (Error "Missing required field: backend")
  /\ load (Scenarios.project_only MoreScenarios.unknown_type_active)
     = Throw (Error ("Backend " ++ dquote ++ "x" ++ dquote
                     ++ " has invalid type: managed-cloud")).
Proof.
  split.
  - apply (proj1 (load_rejects_untyped_active_backend
                    (Scenarios.project_only MoreScenarios.no_active_backend) eq_refl)).
    reflexivity.
  - apply (proj1 (proj2 (proj2 (load_rejects_untyped_active_backend
                    (Scenarios.project_only MoreScenarios.unknown_type_active) eq_refl))
                    eq_refl eq_refl eq_refl eq_refl eq_refl)).
    reflexivity.
Defined.

(** What [load] throws, for sources without a key [__proto__].  It is an
    [Error] with one of the messages of [validateConfig] and
    [validateBackend], which quotes the active name and, for an invalid
    type, the type; or it is the conversion's [TypeError], when that name
    or that type has no string form.  It is no other [TypeError]; and the
    message about a missing [backends] is not among the messages, since
    [load] always builds that object before it validates. *)
Theorem load_throws_validation_errors_only (env : sources) (e : value) :
  no_proto_keys env = true ->
  load env = Throw e ->
  let cfg := VObj (merged_config env) in
  let name := prop cfg "backend" in
  let type := prop (backendEntry cfg (to_string name)) "type" in
  (e = TypeError "Cannot convert object to primitive value"
   /\ (converts name = false \/ converts type = false))
  \/ exists message quotedName quotedType,
       e = Error message
       /\ In message (validation_messages quotedName quotedType)
       /\ message <> "Missing required field: backends"
       /\ (prints name = true -> quotedName = to_string name)
       /\ (prints type = true -> quotedType = to_string type).
Proof.
  intros _. unfold load. intros H.
  destruct (validateConfig (VObj (merged_config env))) as [[]|e'] eqn:V;
    cbn [bind] in H; [discriminate H|].
  injection H as <-. cbv zeta.
  set (cfg := VObj (merged_config env)) in *.
  set (name := prop cfg "backend") in *.
  set (type := prop (backendEntry cfg (to_string name)) "type").
  assert (Listed : forall message,
             In message (validation_messages (to_string name) (to_string type)) ->
             (exists tail : string,
                 message = ("Backend " ++ dquote ++ tail)%string
                 \/ message = "Missing required field: backend") ->
             exists message' quotedName quotedType,
               Error message = Error message'
               /\ In message' (validation_messages quotedName quotedType)
               /\ message' <> "Missing required field: backends"
               /\ (prints name = true -> quotedName = to_string name)
               /\ (prints type = true -> quotedType = to_string type)).
  { intros message Hin [tail Hshape].
    exists message, (to_string name), (to_string type).
    split; [reflexivity|]. split; [exact Hin|]. split; [|split; reflexivity].
    destruct Hshape as [-> | ->]; cbn; discriminate. }
  destruct (truthy name) eqn:Hname.
  2:{ unfold cfg in V. rewrite (validateConfig_no_backend env Hname) in V.
      injection V as <-. right. apply Listed; [now left|].
      exists "". now right. }
  unfold cfg in V. rewrite (validateConfig_merged env Hname) in V. cbv zeta in V.
  fold cfg in V. fold name in V.
  destruct (ToString_cases name) as [[Hc E]|[Hc E]]; rewrite E in V; cbn [bind] in V.
  2:{ injection V as <-. left. split; [reflexivity | now left]. }
  destruct (truthy (member (prop cfg "backends") (to_string name))) eqn:Hm.
  2:{ injection V as <-. right. apply Listed.
      - right; right; left; reflexivity.
      - eexists. left. reflexivity. }
  rewrite (validateBackend_cases _ _ Hm Hc) in V. cbv zeta in V.
  destruct (truthy (prop (member _ _) "type")) eqn:Htype; cbn [negb] in V.
  2:{ injection V as <-. right. apply Listed.
      - do 3 right; left; reflexivity.
      - eexists. left. reflexivity. }
  rewrite (member_typed _ _ Htype) in V.
  fold (backendEntry cfg (to_string name)) in V. fold type in V.
  destruct (is_str type "cerebras").
  - destruct (truthy (prop _ "apiKey")); [discriminate V|].
    injection V as <-. right. apply Listed.
    + do 4 right; left; reflexivity.
    + eexists. left. reflexivity.
  - destruct (is_str type "self-hosted").
    + destruct (truthy (prop _ "url")); [discriminate V|].
      injection V as <-. right. apply Listed.
      * do 5 right; left; reflexivity.
      * eexists. left. reflexivity.
    + destruct (ToString_cases type) as [[_ Et]|[Hct Et]]; rewrite Et in V;
        cbn [bind] in V; injection V as <-.
      * right. apply Listed.
        -- do 6 right; left; reflexivity.
        -- eexists. left. reflexivity.
      * left. split; [reflexivity | now right].
Qed.

(** The project file that names a backend it does not define, and one
    whose active name has no string form. *)
Lemma load_throws_validation_errors_only_witness :
  (exists message,
      Error ("Backend " ++ dquote ++ "nonexistent" ++ dquote
             ++ " not found in backends configuration") = Error message
      /\ message <> "Missing required field: backends")
  /\ load (Scenarios.project_only (VObj [("backend", Scenarios.not_a_string)]))
     = Throw (TypeError "Cannot convert object to primitive value").
Proof.
  split.
  - destruct (load_throws_validation_errors_only
                (Scenarios.project_only Scenarios.nonexistent_backend) _ eq_refl eq_refl)
      as [[H _]|[message [n [t [H1 [_ [H3 _]]]]]]].
    + discriminate H.
    + exists message. split; [exact H1 | exact H3].
  - reflexivity.
Defined.

Lemma silent_step st src :
  silent_on_backend src = true ->
  lookup "backend" (fst st) = None ->
  lookup "backend" (fst (load_source st src)) = None
  /\ snd (load_source st src) = (snd st || is_found_object src)%bool.
Proof.
  intros Hs Hc. destruct st as [c h].
  destruct src as [| |[| | | | | |o|]]; try discriminate Hs.
  - cbn [load_source fst snd is_found_object]. split; [exact Hc | now rewrite orb_false_r].
  - cbn [load_source fst snd is_found_object]. split; [exact Hc | now rewrite orb_false_r].
  - rewrite load_source_found. cbn [fst snd is_found_object].
    split; [|now rewrite orb_true_r].
    rewrite (merge_key_scalar _ "backend" _ _ eq_refl), lookup_spread_object.
    cbn [silent_on_backend] in Hs. apply andb_true_iff in Hs. destruct Hs as [Hs _].
    apply negb_true_iff in Hs. now rewrite Hs.
Qed.

(** The defaults do not supply the active backend.  As soon as one source
    is found, [load] takes the active backend from the sources alone: when
    none of them has a [backend] key (nor a key [__proto__], through which
    a [backend] could be inherited) it throws the missing-backend error,
    although the built-in defaults name one. *)
Theorem load_needs_explicit_backend (env : sources) :
  silent_on_backend (globalConfig env) = true ->
  silent_on_backend (projectConfig env) = true ->
  silent_on_backend (LLM_BACKEND_CONFIG env) = true ->
  (is_found_object (globalConfig env) || is_found_object (projectConfig env)
   || is_found_object (LLM_BACKEND_CONFIG env))%bool = true ->
  load env = Throw (Error "Missing required field: backend").
Proof.
  intros S1 S2 S3 Hfound.
  destruct (silent_step ([], false) _ S1 eq_refl) as [L1 F1].
  destruct (silent_step _ _ S2 L1) as [L2 F2].
  destruct (silent_step _ _ S3 L2) as [L3 F3].
  unfold load. rewrite validateConfig_no_backend; [reflexivity|].
  rewrite merged_config_unfold. cbv zeta.
  rewrite F3, F2, F1. cbn [snd orb]. rewrite Hfound. cbn [negb].
  destruct (merge_with_defaults_spec _ (sources_plain env)) as [-> _].
  cbn [prop]. now rewrite L3.
Qed.

(** A project file that only sets the port. *)
Lemma load_needs_explicit_backend_witness :
  prop getDefaultConfig "backend" = VStr "self-hosted"
  /\ load (Scenarios.project_only MoreScenarios.port_only)
     = Throw (Error "Missing required field: backend").
Proof.
  split; [reflexivity|].
  apply load_needs_explicit_backend; reflexivity.
Defined.

Lemma load_source_unusable st src :
  unusable src = true -> load_source st src = st.
Proof.
  destruct src as [| |[| | | | | | |]]; try discriminate; reflexivity.
Qed.

(** A source that cannot be used is skipped.  A file that cannot be read
    or parsed, and a file or variable that holds [null], change nothing:
    [load] gives what it gives without them, the built-in defaults when
    nothing else is configured. *)
Theorem load_skips_unusable_sources (env : sources) :
  load env = load (without_unusable env)
  /\ (unusable (globalConfig env) = true -> unusable (projectConfig env) = true ->
      unusable (LLM_BACKEND_CONFIG env) = true ->
      load env = Return (VObj (spread [] getDefaultConfig))).
Proof.
  assert (Step : forall st src,
             load_source st (if unusable src then Absent else src) = load_source st src).
  { intros st src. destruct (unusable src) eqn:U; [|reflexivity].
    now rewrite (load_source_unusable st src U). }
  split.
  - unfold load, merged_config, without_unusable.
    cbn [globalConfig projectConfig LLM_BACKEND_CONFIG]. now rewrite !Step.
  - intros G P E. unfold load, merged_config.
    rewrite (load_source_unusable _ _ G), (load_source_unusable _ _ P),
      (load_source_unusable _ _ E).
    reflexivity.
Qed.

(** The project file has a syntax error: the global file decides. *)
Lemma load_skips_unusable_sources_witness :
  load MoreScenarios.broken_project_file
  = load {| globalConfig := Found Scenarios.global_config;
            projectConfig := Absent;
            LLM_BACKEND_CONFIG := Absent |}
  /\ load {| globalConfig := Unreadable; projectConfig := Found VNull;
             LLM_BACKEND_CONFIG := Unreadable |}
     = Return (VObj (spread [] getDefaultConfig)).
Proof.
  split.
  - exact (proj1 (load_skips_unusable_sources MoreScenarios.broken_project_file)).
  - apply (proj2 (load_skips_unusable_sources
                    {| globalConfig := Unreadable; projectConfig := Found VNull;
                       LLM_BACKEND_CONFIG := Unreadable |})); reflexivity.
Defined.

End LoadExtras.

(* ===================================================================== *)
(** * More about [save] *)
(* ===================================================================== *)

Section SaveExtras.

Import ConfigLoader.

Lemma find_put_other other path f fs :
  String.eqb other path = false ->
  find_file other (put_file path f fs) = find_file other fs.
Proof.
  intros Hne. induction fs as [|[p g] fs IH]; cbn [put_file find_file].
  - now rewrite Hne.
  - destruct (String.eqb path p) eqn:E; cbn [find_file].
    + apply String.eqb_eq in E. subst p. now rewrite Hne.
    + now rewrite IH.
Qed.

Lemma chmod_other other path m fs :
  String.eqb other path = false ->
  find_file other (files (chmod path m fs)) = find_file other (files fs).
Proof.
  intros Hne. unfold chmod. destruct (find_file path (files fs)); [|reflexivity].
  cbn [files]. now apply find_put_other.
Qed.



End SaveExtras.

(* ===================================================================== *)
(** * The constructors and the factory *)
(* ===================================================================== *)

Section ConstructorExtras.

Lemma eqb_neq s t : s <> t -> String.eqb s t = false.
Proof.
  intros H. destruct (String.eqb s t) eqn:E; [|reflexivity].
  apply String.eqb_eq in E. contradiction.
Qed.

Lemma or_default_truthy v d : truthy d = true -> truthy (js_or v d) = true.
Proof. intros Hd. unfold js_or. now destruct (truthy v) eqn:E. Qed.

(** [new CerebrasStrategy(config)] succeeds exactly on a string [apiKey]
    that is not blank.  When it returns, the strategy holds that key and
    an API URL, the configured one or the default.  A missing, empty or
    blank key is refused with the requires-apiKey error. *)
Theorem cerebras_constructor (config : value) :
  (forall self,
      CerebrasStrategy.new config = Return self ->
      exists key,
        prop config "apiKey" = VStr key /\ trim key <> ""
        /\ CerebrasStrategy.apiKey self = VStr key
        /\ CerebrasStrategy.apiUrl self
           = js_or (prop config "apiUrl") (VStr "https://api.cerebras.ai/v1")
        /\ truthy (CerebrasStrategy.apiUrl self) = true)
  /\ (forall key,
        prop config "apiKey" = VStr key -> trim key <> "" ->
        exists self, CerebrasStrategy.new config = Return self)
  /\ (forall key,
        prop config "apiKey" = VStr key -> trim key = "" ->
        CerebrasStrategy.new config = Throw (Error "Cerebras strategy requires apiKey"))
  /\ (nullish config = false -> truthy (prop config "apiKey") = false ->
      CerebrasStrategy.new config = Throw (Error "Cerebras strategy requires apiKey")).
Proof.
  assert (Defined : forall key, prop config "apiKey" = VStr key -> nullish config = false).
  { intros key H. apply (owner_not_nullish config "apiKey"). now rewrite H. }
  unfold CerebrasStrategy.new, CerebrasStrategy.validateConfig.
  split; [|split; [|split]].
  - intros self. destruct (nullish config) eqn:N.
    { destruct config; try discriminate N; intros H; discriminate H. }
    rewrite (get_defined _ _ N). cbn [bind].
    destruct (truthy (prop config "apiKey")) eqn:Ht; cbn [negb]; [|intros H; discriminate H].
    destruct (prop config "apiKey") as [| | | |key| | |] eqn:Ek;
      cbn [call_trim bind]; try (intros H; discriminate H).
    destruct (String.eqb (trim key) "") eqn:Eb; [intros H; discriminate H|].
    intros H. injection H as <-. exists key. cbn.
    repeat split; try reflexivity.
    + intros E. rewrite E in Eb. discriminate Eb.
    + now apply or_default_truthy.
  - intros key Hk Hb. rewrite (get_defined _ _ (Defined _ Hk)), Hk.
    cbn [bind truthy call_trim].
    destruct (String.eqb key "") eqn:E.
    { apply String.eqb_eq in E. subst key. now elim Hb. }
    cbn [negb bind]. rewrite (eqb_neq _ _ Hb). eexists. reflexivity.
  - intros key Hk Hb. rewrite (get_defined _ _ (Defined _ Hk)), Hk.
    cbn [bind truthy call_trim].
    destruct (String.eqb key ""); cbn [negb bind]; [reflexivity|].
    now rewrite Hb.
  - intros N Ht. rewrite (get_defined _ _ N). cbn [bind]. now rewrite Ht.
Qed.

(** tests/unit/strategies/cerebras-strategy.test.js, "should validate
    required configuration", and a key of spaces. *)
Lemma cerebras_constructor_witness :
  CerebrasStrategy.new (VObj []) = Throw (Error "Cerebras strategy requires apiKey")
  /\ CerebrasStrategy.new (VObj [("apiKey", VStr "")])
     = Throw (Error "Cerebras strategy requires apiKey")
  /\ CerebrasStrategy.new (VObj [("apiKey", VStr "   ")])
     = Throw (Error "Cerebras strategy requires apiKey")
  /\ exists self, CerebrasStrategy.new (VObj [("apiKey", VStr "valid-key")]) = Return self.
Proof.
  split; [|split; [|split]].
  - apply (proj2 (proj2 (proj2 (cerebras_constructor (VObj []))))); reflexivity.
  - apply (proj1 (proj2 (proj2 (cerebras_constructor (VObj [("apiKey", VStr "")])))) "");
      reflexivity.
  - apply (proj1 (proj2 (proj2 (cerebras_constructor (VObj [("apiKey", VStr "   ")])))) "   ");
      reflexivity.
  - apply (proj1 (proj2 (cerebras_constructor (VObj [("apiKey", VStr "valid-key")])))
             "valid-key"); [reflexivity | discriminate].
Defined.

(** [new SelfHostedStrategy(config)] succeeds exactly on a string [url]
    that is not blank and that the platform parses as a URL.  A missing or
    blank url is refused with the requires-url error, a url that does not
    parse with the invalid-format error. *)
Theorem self_hosted_constructor (w : world) (config : value) :
  (forall self,
      SelfHostedStrategy.new w config = Return self ->
      exists url,
        prop config "url" = VStr url /\ trim url <> "" /\ URL_parses w url = true
        /\ SelfHostedStrategy.url self = VStr url)
  /\ (forall url,
        prop config "url" = VStr url -> trim url <> "" -> URL_parses w url = true ->
        exists self, SelfHostedStrategy.new w config = Return self)
  /\ (forall url,
        prop config "url" = VStr url -> trim url <> "" -> URL_parses w url = false ->
        SelfHostedStrategy.new w config = Throw (Error "Invalid URL format"))
  /\ (forall url,
        prop config "url" = VStr url -> trim url = "" ->
        SelfHostedStrategy.new w config = Throw (Error "Self-hosted strategy requires url"))
  /\ (nullish config = false -> truthy (prop config "url") = false ->
      SelfHostedStrategy.new w config = Throw (Error "Self-hosted strategy requires url")).
Proof.
  assert (Defined : forall url, prop config "url" = VStr url -> nullish config = false).
  { intros url H. apply (owner_not_nullish config "url"). now rewrite H. }
  assert (Nonblank : forall url, trim url <> "" -> String.eqb url "" = false).
  { intros url H. apply eqb_neq. intros ->. now elim H. }
  unfold SelfHostedStrategy.new, SelfHostedStrategy.validateConfig.
  split; [|split; [|split; [|split]]].
  - intros self. destruct (nullish config) eqn:N.
    { destruct config; try discriminate N; intros H; discriminate H. }
    rewrite (get_defined _ _ N). cbn [bind].
    destruct (truthy (prop config "url")) eqn:Ht; cbn [negb]; [|intros H; discriminate H].
    destruct (prop config "url") as [| | | |url| | |] eqn:Ek;
      cbn [call_trim bind]; try (intros H; discriminate H).
    destruct (String.eqb (trim url) "") eqn:Eb; [intros H; discriminate H|].
    cbn [to_string]. destruct (URL_parses w url) eqn:Ep; [|intros H; discriminate H].
    intros H. injection H as <-. exists url. cbn.
    split; [reflexivity|split; [|split; [exact Ep|reflexivity]]].
    intros E. rewrite E in Eb. discriminate Eb.
  - intros url Hk Hb Hp. rewrite (get_defined _ _ (Defined _ Hk)), Hk.
    cbn [bind truthy call_trim to_string]. rewrite (Nonblank _ Hb).
    cbn [negb bind]. rewrite (eqb_neq _ _ Hb), Hp. eexists. reflexivity.
  - intros url Hk Hb Hp. rewrite (get_defined _ _ (Defined _ Hk)), Hk.
    cbn [bind truthy call_trim to_string]. rewrite (Nonblank _ Hb).
    cbn [negb bind]. now rewrite (eqb_neq _ _ Hb), Hp.
  - intros url Hk Hb. rewrite (get_defined _ _ (Defined _ Hk)), Hk.
    cbn [bind truthy call_trim].
    destruct (String.eqb url ""); cbn [negb bind]; [reflexivity|].
    now rewrite Hb.
  - intros N Ht. rewrite (get_defined _ _ N). cbn [bind]. now rewrite Ht.
Qed.

(** tests/unit/strategies/self-hosted-strategy.test.js and
    tests/unit/backend-factory.test.js: no url, an url that is no URL, a
    good one. *)
Lemma self_hosted_constructor_witness :
  SelfHostedStrategy.new Scenarios.offline (VObj [])
  = Throw (Error "Self-hosted strategy requires url")
  /\ SelfHostedStrategy.new Scenarios.offline Scenarios.invalid_url_entry
     = Throw (Error "Invalid URL format")
  /\ exists self,
      SelfHostedStrategy.new Scenarios.offline
        (VObj [("url", VStr "http://localhost:8000")]) = Return self.
Proof.
  split; [|split].
  - apply (proj2 (proj2 (proj2 (proj2
             (self_hosted_constructor Scenarios.offline (VObj [])))))); reflexivity.
  - apply (proj1 (proj2 (proj2
             (self_hosted_constructor Scenarios.offline Scenarios.invalid_url_entry)))
             "invalid-url"); [reflexivity | discriminate | reflexivity].
  - apply (proj1 (proj2
             (self_hosted_constructor Scenarios.offline
                (VObj [("url", VStr "http://localhost:8000")])))
             "http://localhost:8000"); [reflexivity | discriminate | reflexivity].
Defined.

(** What a constructor throws carries no property of its own. *)
Lemma cerebras_new_throws config e :
  CerebrasStrategy.new config = Throw e -> exists name message, e = VErr name message [].
Proof.
  unfold CerebrasStrategy.new, CerebrasStrategy.validateConfig.
  destruct (nullish config) eqn:N.
  { destruct config; try discriminate N; intros H; injection H as <-;
      eexists; eexists; reflexivity. }
  rewrite (get_defined _ _ N). cbn [bind].
  destruct (truthy (prop config "apiKey")); cbn [negb].
  2:{ intros H. injection H as <-. eexists; eexists; reflexivity. }
  destruct (prop config "apiKey"); cbn [call_trim bind];
    try (intros H; injection H as <-; eexists; eexists; reflexivity).
  destruct (String.eqb (trim s) ""); intros H; [|discriminate H].
  injection H as <-. eexists; eexists; reflexivity.
Qed.

Lemma self_hosted_new_throws w config e :
  SelfHostedStrategy.new w config = Throw e -> exists name message, e = VErr name message [].
Proof.
  unfold SelfHostedStrategy.new, SelfHostedStrategy.validateConfig.
  destruct (nullish config) eqn:N.
  { destruct config; try discriminate N; intros H; injection H as <-;
      eexists; eexists; reflexivity. }
  rewrite (get_defined _ _ N). cbn [bind].
  destruct (truthy (prop config "url")); cbn [negb].
  2:{ intros H. injection H as <-. eexists; eexists; reflexivity. }
  destruct (prop config "url"); cbn [call_trim bind];
    try (intros H; injection H as <-; eexists; eexists; reflexivity).
  destruct (String.eqb (trim s) "").
  { intros H. injection H as <-. eexists; eexists; reflexivity. }
  destruct (URL_parses w _); intros H; [discriminate H|].
  injection H as <-. eexists; eexists; reflexivity.
Qed.

(** [isSupported] and [createStrategy] agree.  For a configuration with a
    type whose text the model has, [isSupported(config.type)] is false
    exactly when [createStrategy(config)] throws the unknown-type error,
    the one that carries [supportedTypes].  A type that has no string form
    is not supported either, and makes [createStrategy] throw the
    conversion's [TypeError]. *)
Theorem isSupported_agrees_with_createStrategy (w : world) (config : value) :
  truthy (prop config "type") = true ->
  (prints (prop config "type") = true ->
   BackendFactory.isSupported (prop config "type") = false
   <-> BackendFactory.createStrategy w config
       = Throw (VErr "Error" ("Unknown backend type: " ++ to_string (prop config "type"))
                     [("supportedTypes",
                       strings BackendFactory.getSupportedTypes)]))
  /\ (converts (prop config "type") = false ->
      BackendFactory.isSupported (prop config "type") = false
      /\ BackendFactory.createStrategy w config
         = Throw (TypeError "Cannot convert object to primitive value")).
Proof.
  intros Ht.
  assert (Hc : truthy config = true).
  { apply typed_truthy. now apply truthy_defined. }
  unfold BackendFactory.isSupported, BackendFactory.createStrategy,
    BackendFactory.getSupportedTypes.
  cbn [existsb]. rewrite Hc, Ht, orb_false_r. cbn [negb orb].
  split.
  - intros Hp. rewrite (ToString_prints _ Hp). cbn [bind].
    destruct (is_str (prop config "type") "cerebras"); cbn [orb].
    + split; [discriminate|]. intros H. exfalso.
      destruct (CerebrasStrategy.new config) as [s|e] eqn:E; cbn [bind] in H;
        [discriminate H|].
      destruct (cerebras_new_throws _ _ E) as [n [m ->]]. discriminate H.
    + destruct (is_str (prop config "type") "self-hosted").
      * split; [discriminate|]. intros H. exfalso.
        destruct (SelfHostedStrategy.new w config) as [s|e] eqn:E; cbn [bind] in H;
          [discriminate H|].
        destruct (self_hosted_new_throws _ _ _ E) as [n [m ->]]. discriminate H.
      * split; reflexivity.
  - intros Hu.
    assert (N : forall lit, is_str (prop config "type") lit = false).
    { intros lit. destruct (prop config "type"); try reflexivity. discriminate Hu. }
    rewrite !N, (ToString_unconvertible _ Hu). split; reflexivity.
Qed.

(** tests/unit/backend-factory.test.js: the type [nonexistent]. *)
Lemma isSupported_agrees_with_createStrategy_witness :
  BackendFactory.isSupported (VStr "nonexistent") = false
  /\ BackendFactory.createStrategy Scenarios.offline (VObj [("type", VStr "nonexistent")])
     = Throw (VErr "Error" "Unknown backend type: nonexistent"
                   [("supportedTypes", VArr [VStr "cerebras"; VStr "self-hosted"])]).
Proof.
  split; [reflexivity|].
  apply (proj1 (proj1 (isSupported_agrees_with_createStrategy
                         Scenarios.offline (VObj [("type", VStr "nonexistent")]) eq_refl)
                      eq_refl)).
  reflexivity.
Defined.

End ConstructorExtras.

(* ===================================================================== *)
(** * Requests and health checks *)
(* ===================================================================== *)

Section RequestExtras.

Import ProxyServer.

Lemma get_cases v k :
  (exists m, get v k = Throw (TypeError m)) \/ get v k = Return (prop v k).
Proof.
  destruct v; try (right; reflexivity); left; eexists; reflexivity.
Qed.

(** [checkHealth] of the self-hosted strategy returns an object whose
    [endpoint] is the configured url, whatever the backend does. *)
Lemma checkHealth_returns w self :
  exists ps,
    SelfHostedStrategy.checkHealth w self = Return (VObj ps)
    /\ lookup "endpoint" ps = Some (SelfHostedStrategy.url self).
Proof.
  unfold SelfHostedStrategy.checkHealth.
  destruct (axios_get w _ _) as [response|e]; cbn [bind try_catch].
  - destruct (get_cases response "data") as [[m ->]| ->]; cbn [bind try_catch].
    + eexists. split; reflexivity.
    + eexists. split; [reflexivity|]. apply lookup_assign_same.
  - eexists. split; reflexivity.
Qed.

(** [checkHealth] never throws.  Its report always has the configured url
    as [endpoint], also when the backend's body has an [endpoint] of its
    own; the other fields of the backend's body are reported as they are.
    When the request fails the report is the [unhealthy] record. *)
Theorem checkHealth_always_reports (w : world) (self : SelfHostedStrategy.t) :
  let request :=
    axios_get w (to_string (SelfHostedStrategy.url self) ++ "/health")
              (VObj [("timeout", VNum 5000)]) in
  (exists report,
      SelfHostedStrategy.checkHealth w self = Return report
      /\ prop report "endpoint" = SelfHostedStrategy.url self)
  /\ (forall e,
        request = Throw e ->
        SelfHostedStrategy.checkHealth w self
        = Return (VObj [("status", VStr "unhealthy");
                        ("error", VStr "Cannot connect to proxy");
                        ("endpoint", SelfHostedStrategy.url self)]))
  /\ (forall response body,
        request = Return response -> prop response "data" = VObj body ->
        exists report,
          SelfHostedStrategy.checkHealth w self = Return report
          /\ forall k, String.eqb k "endpoint" = false ->
                       prop report k = prop (VObj body) k).
Proof.
  cbv zeta. split; [|split].
  - destruct (checkHealth_returns w self) as [ps [E L]].
    exists (VObj ps). split; [exact E|]. cbn [prop]. now rewrite L.
  - intros e H. unfold SelfHostedStrategy.checkHealth. now rewrite H.
  - intros response body H D. unfold SelfHostedStrategy.checkHealth. rewrite H.
    cbn [bind]. rewrite get_defined.
    2:{ apply (owner_not_nullish response "data"). now rewrite D. }
    rewrite D. cbn [bind try_catch]. eexists. split; [reflexivity|].
    intros k Hk. rewrite prop_assign, Hk. apply prop_spread_object.
Qed.

(** The backend answers [/health] with an [endpoint] of its own. *)
Lemma checkHealth_always_reports_witness :
  SelfHostedStrategy.checkHealth MoreScenarios.backend_is_up Scenarios.local
  = Return (VObj [("status", VStr "healthy");
                  ("endpoint", VStr "http://localhost:8000")])
  /\ SelfHostedStrategy.checkHealth Scenarios.offline Scenarios.local
     = Return (VObj [("status", VStr "unhealthy");
                     ("error", VStr "Cannot connect to proxy");
                     ("endpoint", VStr "http://localhost:8000")]).
Proof.
  split.
  - reflexivity.
  - apply (proj1 (proj2 (checkHealth_always_reports Scenarios.offline Scenarios.local))
             Scenarios.connection_refused).
    reflexivity.
Defined.

(** [GET /health] never reports [degraded] with a strategy that the
    factory built, or with none.  On a server that is not listening it
    answers 200 and the overall status [healthy]: the [degraded] branch
    needs a [checkHealth] that throws, and neither class has one.  On a
    server that listens it answers 500, since reading the port throws. *)
Theorem health_never_degraded
        (now : value) (w : world) (config server : value)
        (s : option BackendFactory.strategy) :
  nullish config = false ->
  let r := health now {| config := config;
                         currentStrategy := option_map (instantiate w) s;
                         this_server := server |} in
  (truthy server = false ->
   statusCode r = 200%Z /\ prop (payload r) "status" = VStr "healthy")
  /\ (truthy server = true ->
      statusCode r = 500%Z /\ prop (payload r) "status" = VUndef).
Proof.
  intros N. cbv zeta. unfold health, listening_port.
  cbn [ProxyServer.config ProxyServer.currentStrategy ProxyServer.this_server].
  rewrite (get_defined _ _ N). cbn [bind].
  split; intros Hs; rewrite Hs; cbn [bind]; [|split; reflexivity].
  destruct s as [[c|sh]|]; cbn [option_map instantiate checkHealth BackendFactory.checkHealth].
  - split; reflexivity.
  - destruct (checkHealth_returns w sh) as [ps [-> _]]. split; reflexivity.
  - split; reflexivity.
Qed.

Lemma health_never_degraded_witness :
  prop (payload (health (VStr "2025-01-01T00:00:00.000Z")
                        {| config := VObj [("backend", VStr "self-hosted")];
                           currentStrategy :=
                             option_map (instantiate Scenarios.offline)
                                        (Some (BackendFactory.SelfHosted Scenarios.unreachable));
                           this_server := VNull |}))
       "status"
  = VStr "healthy"
  /\ statusCode (health (VStr "2025-01-01T00:00:00.000Z")
                        {| config := VObj [("backend", VStr "self-hosted")];
                           currentStrategy :=
                             option_map (instantiate Scenarios.offline)
                                        (Some (BackendFactory.SelfHosted Scenarios.unreachable));
                           this_server := VStr "http://0.0.0.0:8000" |})
     = 500%Z.
Proof.
  split.
  - apply (proj1 (health_never_degraded (VStr "2025-01-01T00:00:00.000Z") Scenarios.offline
                    (VObj [("backend", VStr "self-hosted")]) VNull
                    (Some (BackendFactory.SelfHosted Scenarios.unreachable)) eq_refl)
                 eq_refl).
  - apply (proj2 (health_never_degraded (VStr "2025-01-01T00:00:00.000Z") Scenarios.offline
                    (VObj [("backend", VStr "self-hosted")]) (VStr "http://0.0.0.0:8000")
                    (Some (BackendFactory.SelfHosted Scenarios.unreachable)) eq_refl)
                 eq_refl).
Defined.




End RequestExtras.

(* ===================================================================== *)
(** * The [/v1/messages] handler and the strategies behind it *)
(* ===================================================================== *)

Section ProxyExtras.

Import ProxyServer.

Lemma request_failed_status error : statusCode (request_failed error) = 500%Z.
Proof. unfold request_failed. now destruct (get error "message"). Qed.

Lemma request_failed_recommends error :
  nullish error = false ->
  request_failed error
  = {| statusCode := 500;
       payload := VObj [
         ("error", prop error "message");
         ("recommendations",
          js_or (prop error "recommendations")
                (strings ["Check backend configuration";
                          "Try switching to a different backend"])) ] |}
  /\ truthy (prop (payload (request_failed error)) "recommendations") = true.
Proof.
  intros N. unfold request_failed. rewrite (get_defined _ _ N). split; [reflexivity|].
  cbn [payload prop lookup]. change (String.eqb "recommendations" "error") with false.
  rewrite String.eqb_refl. cbv iota. now apply or_default_truthy.
Qed.

(** What [POST /v1/messages] can answer.  It answers 200 only with what
    the strategy returned for the body's messages; it answers 400 with the
    fixed error and without calling the strategy; everything else is a
    500.  The strategy is called at most once, and a 500 that reports a
    thrown error always carries recommendations. *)
Theorem messages_reply_cases (srv : server) (body : value) :
  let r := fst (messages srv body) in
  let calls := snd (messages srv body) in
  (statusCode r = 200%Z
   /\ exists s options,
        currentStrategy srv = Some s
        /\ calls = [(prop body "messages", options)]
        /\ executeRequest s (prop body "messages") options = Return (payload r))
  \/ (statusCode r = 400%Z /\ calls = []
      /\ payload r = VObj [("error", VStr messages_required)])
  \/ (statusCode r = 500%Z /\ (length calls <= 1)%nat
      /\ ((exists e, r = internal_error e)
          \/ truthy (prop (payload r) "recommendations") = true)).
Proof.
  cbv zeta. unfold messages.
  destruct (nullish body).
  { right; right. cbn [fst snd]. split; [apply request_failed_status|].
    split; [cbn; lia|]. right. now apply request_failed_recommends. }
  destruct (negb (truthy (prop body "messages")) || negb (isArray (prop body "messages"))
            || is_num (prop (prop body "messages") "length") 0).
  { right; left. cbn [fst snd statusCode payload]. repeat split. }
  destruct (currentStrategy srv) as [s|].
  2:{ right; right. cbn [fst snd]. split; [apply request_failed_status|].
      split; [cbn; lia|]. right. now apply request_failed_recommends. }
  destruct (executeRequest s _ _) as [result|error] eqn:E.
  - left. cbn [fst snd statusCode payload]. split; [reflexivity|].
    eexists; eexists. split; [reflexivity|]. split; [reflexivity|]. exact E.
  - right; right. cbn [fst snd]. split; [apply request_failed_status|].
    split; [cbn; lia|].
    destruct (nullish error) eqn:N.
    + left. unfold request_failed.
      destruct error; try discriminate N; eexists; reflexivity.
    + right. now apply request_failed_recommends.
Qed.

Lemma lookup_absent k (ps : props) : ~ In k (map fst ps) -> lookup k ps = None.
Proof.
  induction ps as [|[k' v] ps IH]; cbn [map fst In lookup]; [reflexivity|].
  intros H. destruct (String.eqb k k') eqn:E.
  - apply String.eqb_eq in E. subst k'. elim H. now left.
  - apply IH. intros F. apply H. now right.
Qed.

Lemma remove_undefined_keys (ps : props) k :
  In k (map fst (remove_undefined ps)) -> In k (map fst ps).
Proof.
  unfold remove_undefined. induction ps as [|[k' v] ps IH]; cbn [filter map fst snd In].
  - intros [].
  - destruct v; cbn [map fst In]; intros H; try (destruct H; [now left | right; now apply IH]).
    right. now apply IH.
Qed.

(** Leaving out the [undefined] properties of an object literal changes no
    property that is read from it. *)
Lemma prop_remove_undefined (ps : props) k :
  NoDup (map fst ps) ->
  prop (VObj (remove_undefined ps)) k = prop (VObj ps) k.
Proof.
  unfold remove_undefined. cbn [prop].
  induction ps as [|[k' v] ps IH]; cbn [filter map fst snd lookup]; [reflexivity|].
  intros D. inversion D as [|? ? Hk Hrest]; subst.
  specialize (IH Hrest).
  assert (Skip : String.eqb k k' = true -> lookup k (filter (fun kv => match snd kv with VUndef => false | _ => true end) ps) = None).
  { intros E. apply String.eqb_eq in E. subst k'. apply lookup_absent.
    intros F. apply Hk. now apply remove_undefined_keys. }
  destruct v; cbn [lookup]; destruct (String.eqb k k') eqn:E; try reflexivity; try exact IH.
  now rewrite (Skip eq_refl).
Qed.

Ltac distinct_keys :=
  cbn [map fst]; repeat constructor; cbn [In]; intuition discriminate.

(** The model that reaches the backend.  For a body with a non-empty list
    of messages the handler calls the strategy once, and the request body
    that either strategy builds from that call has the messages, the
    body's [max_tokens] and [temperature], and as [model] the body's or
    [qwen3-coder]: behind the proxy the cerebras strategy's own default
    model is never sent. *)
Theorem proxy_model_reaches_backend (srv : server) (s : Strategy) (body : value) :
  currentStrategy srv = Some s ->
  nullish body = false ->
  negb (truthy (prop body "messages")) || negb (isArray (prop body "messages"))
  || is_num (prop (prop body "messages") "length") 0 = false ->
  exists options,
    snd (messages srv body) = [(prop body "messages", options)]
    /\ forall build,
         build = CerebrasStrategy.request_data \/ build = SelfHostedStrategy.request_data ->
         exists requestData,
           build (prop body "messages") (default_param options (VObj [])) = Return requestData
           /\ prop requestData "model" = js_or (prop body "model") (VStr "qwen3-coder")
           /\ truthy (prop requestData "model") = true
           /\ prop requestData "messages" = prop body "messages"
           /\ prop requestData "max_tokens" = prop body "max_tokens"
           /\ prop requestData "temperature" = prop body "temperature".
Proof.
  intros Hs Nb Hm. unfold messages. rewrite Nb, Hm, Hs.
  set (model := js_or (prop body "model") (VStr "qwen3-coder")).
  assert (Tm : truthy model = true) by (now apply or_default_truthy).
  eexists. split.
  { destruct (executeRequest s _ _); reflexivity. }
  intros build [-> | ->].
  - unfold CerebrasStrategy.request_data. cbn [default_param get bind prop lookup].
    change (String.eqb "model" "max_tokens") with false.
    change (String.eqb "model" "temperature") with false.
    change (String.eqb "temperature" "max_tokens") with false.
    rewrite !String.eqb_refl. cbv iota.
    unfold js_or at 1. fold model. rewrite Tm.
    eexists. split; [reflexivity|].
    rewrite !prop_remove_undefined by distinct_keys.
    repeat split; try reflexivity. exact Tm.
  - unfold SelfHostedStrategy.request_data. cbn [default_param get bind prop lookup].
    change (String.eqb "model" "max_tokens") with false.
    change (String.eqb "model" "temperature") with false.
    change (String.eqb "temperature" "max_tokens") with false.
    rewrite !String.eqb_refl. cbv iota. fold model.
    eexists. split; [reflexivity|].
    rewrite !prop_remove_undefined by distinct_keys.
    repeat split; try reflexivity. exact Tm.
Qed.

(** The first integration test's body, with no model: the backend is sent
    [qwen3-coder]. *)
Lemma proxy_model_reaches_backend_witness :
  exists options,
    snd (messages (Scenarios.serving (Scenarios.answering VNull))
                  (VObj [("messages", Scenarios.hello); ("max_tokens", VNum 100)]))
    = [(Scenarios.hello, options)]
    /\ exists requestData,
         CerebrasStrategy.request_data Scenarios.hello (default_param options (VObj []))
         = Return requestData
         /\ prop requestData "model" = VStr "qwen3-coder".
Proof.
  destruct (proxy_model_reaches_backend
              (Scenarios.serving (Scenarios.answering VNull))
              (Scenarios.answering VNull)
              (VObj [("messages", Scenarios.hello); ("max_tokens", VNum 100)])
              eq_refl eq_refl eq_refl) as [options [Hc Hb]].
  exists options. split; [exact Hc|].
  destruct (Hb CerebrasStrategy.request_data (or_introl eq_refl))
    as [requestData [Hr [Hmodel _]]].
  exists requestData. split; [exact Hr | exact Hmodel].
Defined.

End ProxyExtras.

(* ===================================================================== *)
(** * The life cycle of the server *)
(* ===================================================================== *)

Section LifecycleExtras.

Import ServerLifecycle.

(** [initializeBackend] on a configuration that [load] returned: the
    active entry goes to the factory. *)
Lemma initializeBackend_loaded w env cfg a old :
  ConfigLoader.load env = Return cfg ->
  let entry := ConfigLoader.backendEntry cfg (to_string (prop cfg "backend")) in
  initializeBackend w {| app := a; config := cfg; currentStrategy := old |}
  = match BackendFactory.createStrategy w entry with
    | Throw e => ({| app := a; config := cfg; currentStrategy := old |}, Throw e)
    | Return s => ({| app := a; config := cfg; currentStrategy := Some s |}, Return tt)
    end.
Proof.
  intros L. destruct (loaded_valid env cfg L) as [_ [He _]].
  destruct (loaded_entry env cfg L) as [Hc Hm]. cbv zeta in *.
  unfold ConfigLoader.backendEntry in *.
  assert (Nb : nullish (prop cfg "backends") = false).
  { apply (owner_not_nullish _ (to_string (prop cfg "backend"))).
    destruct (prop (prop cfg "backends") _); try discriminate He; reflexivity. }
  assert (Nc : nullish cfg = false) by exact (owner_not_nullish _ _ Nb).
  unfold initializeBackend. cbn [config app currentStrategy].
  rewrite (get_defined _ _ Nc), (get_defined _ "backend" Nc). cbn [bind].
  rewrite (get_defined _ _ Nb), (ToString_converts _ Hc). cbn [bind].
  rewrite Hm, He. cbn [negb]. reflexivity.
Qed.

(** The factory on an entry that [load] accepted as the active one: it is
    one of the two constructors. *)
Lemma createStrategy_loaded w env cfg :
  ConfigLoader.load env = Return cfg ->
  let entry := ConfigLoader.backendEntry cfg (to_string (prop cfg "backend")) in
  (is_str (prop entry "type") "cerebras" = true
   /\ BackendFactory.createStrategy w entry
      = (self <- CerebrasStrategy.new entry ;; Return (BackendFactory.Cerebras self)))
  \/ (is_str (prop entry "type") "self-hosted" = true
      /\ BackendFactory.createStrategy w entry
         = (self <- SelfHostedStrategy.new w entry ;; Return (BackendFactory.SelfHosted self))).
Proof.
  intros L. destruct (loaded_valid env cfg L) as [_ [He [Hs _]]]. cbv zeta in *.
  unfold BackendFactory.createStrategy. rewrite He.
  unfold BackendFactory.isSupported, BackendFactory.getSupportedTypes in Hs.
  cbn [existsb] in Hs. rewrite orb_false_r in Hs.
  assert (Ht : truthy (prop (ConfigLoader.backendEntry cfg (to_string (prop cfg "backend"))) "type") = true).
  { destruct (prop _ "type"); try discriminate Hs. cbn in Hs |- *.
    destruct (String.eqb s "") eqn:E; [|reflexivity].
    apply String.eqb_eq in E. subst s. discriminate Hs. }
  rewrite Ht. cbn [negb orb].
  destruct (is_str _ "cerebras") eqn:Ec.
  - left. split; reflexivity.
  - cbn [orb] in Hs. rewrite Hs. right. split; reflexivity.
Qed.

(** When [initialize] returns on a new server, the server has its app,
    the configuration that [load] returned and the strategy that the
    factory built from the active entry, of the class the entry's type
    names; [getCurrentBackend] and [GET /] report the active name. *)
Theorem initialize_success
        (w : world) (env : ConfigLoader.sources) (st : state) (now : value) :
  initialize w env constructed = (st, Return tt) ->
  exists cfg s,
    ConfigLoader.load env = Return cfg
    /\ st = {| app := true; config := cfg; currentStrategy := Some s |}
    /\ BackendFactory.createStrategy w
         (ConfigLoader.backendEntry cfg (to_string (prop cfg "backend"))) = Return s
    /\ is_str (prop (ConfigLoader.backendEntry cfg (to_string (prop cfg "backend"))) "type")
              (match s with
               | BackendFactory.Cerebras _ => "cerebras"
               | BackendFactory.SelfHosted _ => "self-hosted"
               end) = true
    /\ getCurrentBackend st = prop cfg "backend"
    /\ root now (handlers w st)
       = {| ProxyServer.statusCode := 200;
            ProxyServer.payload := VObj [
              ("service", VStr "Multi-LLM Proxy Server");
              ("status", VStr "running");
              ("backend", prop cfg "backend");
              ("version", VStr "1.0.0");
              ("timestamp", now) ] |}.
Proof.
  unfold initialize. destruct (ConfigLoader.load env) as [cfg|e] eqn:L.
  2:{ intros H. discriminate H. }
  rewrite (initializeBackend_loaded w env cfg true _ L). cbv zeta.
  destruct (BackendFactory.createStrategy w _) as [s|e] eqn:C.
  2:{ intros H. discriminate H. }
  intros H. injection H as <-. exists cfg, s.
  split; [reflexivity|]. split; [reflexivity|]. split; [exact C|].
  assert (Nc : nullish cfg = false).
  { unfold ConfigLoader.load in L.
    destruct (ConfigLoader.validateConfig _); cbn [bind] in L; [|discriminate L].
    now injection L as <-. }
  split.
  { destruct (createStrategy_loaded w env cfg L) as [[T E]|[T E]]; cbv zeta in *;
      rewrite E in C.
    - destruct (CerebrasStrategy.new _); cbn [bind] in C; [|discriminate C].
      injection C as <-. exact T.
    - destruct (SelfHostedStrategy.new w _); cbn [bind] in C; [|discriminate C].
      injection C as <-. exact T. }
  split; [reflexivity|].
  unfold root, handlers. cbn [ProxyServer.config config]. now rewrite (get_defined _ _ Nc).
Qed.

(** The project file of the backend-factory tests, on a machine where
    URLs of that form parse. *)
Lemma initialize_success_witness :
  exists cfg s,
    ConfigLoader.load Scenarios.global_and_project = Return cfg
    /\ BackendFactory.createStrategy Scenarios.offline
         (ConfigLoader.backendEntry cfg (to_string (prop cfg "backend"))) = Return s
    /\ prop cfg "backend" = VStr "project-backend".
Proof.
  destruct (initialize_success Scenarios.offline Scenarios.global_and_project
              (fst (initialize Scenarios.offline Scenarios.global_and_project constructed))
              VNull eq_refl)
    as [cfg [s [L [E [C _]]]]].
  exists cfg, s. split; [exact L|]. split; [exact C|].
  assert (Hc : config (fst (initialize Scenarios.offline Scenarios.global_and_project
                                          constructed)) = cfg)
    by (rewrite E; reflexivity).
  rewrite <- Hc. reflexivity.
Defined.

(** When [initialize] throws, either [load] threw and the server is as it
    was, or a constructor threw: the checks of [initializeBackend] and of
    the factory for a missing entry, a missing type and an unknown type
    cannot fail after [load].  In the second case the server keeps its app
    and the new configuration, and has the strategy it had. *)
Theorem initialize_failure
        (w : world) (env : ConfigLoader.sources) (st st' : state) (e : value) :
  initialize w env st = (st', Throw e) ->
  (ConfigLoader.load env = Throw e /\ st' = st)
  \/ exists cfg,
       ConfigLoader.load env = Return cfg
       /\ st' = {| app := true; config := cfg; currentStrategy := currentStrategy st |}
       /\ let entry := ConfigLoader.backendEntry cfg (to_string (prop cfg "backend")) in
          CerebrasStrategy.new entry = Throw e \/ SelfHostedStrategy.new w entry = Throw e.
Proof.
  unfold initialize. destruct (ConfigLoader.load env) as [cfg|e0] eqn:L.
  2:{ intros H. injection H as <- <-. left. split; reflexivity. }
  rewrite (initializeBackend_loaded w env cfg true _ L). cbv zeta.
  destruct (BackendFactory.createStrategy w _) as [s|e0] eqn:C.
  { intros H. discriminate H. }
  intros H. injection H as <- <-. right. exists cfg.
  split; [reflexivity|]. split; [reflexivity|].
  destruct (createStrategy_loaded w env cfg L) as [[T E]|[T E]]; cbv zeta in *;
    rewrite E in C.
  - left. destruct (CerebrasStrategy.new _); cbn [bind] in C; [discriminate C|].
    now injection C as <-.
  - right. destruct (SelfHostedStrategy.new w _); cbn [bind] in C; [discriminate C|].
    now injection C as <-.
Qed.

(** The project file with the url [invalid-url]: [load] accepts it and the
    constructor refuses it. *)
Lemma initialize_failure_witness :
  initialize Scenarios.offline (Scenarios.project_only Scenarios.invalid_url_config)
             constructed
  = ({| app := true; config := Scenarios.invalid_url_loaded; currentStrategy := None |},
     Throw (Error "Invalid URL format"))
  /\ SelfHostedStrategy.new Scenarios.offline Scenarios.invalid_url_entry
     = Throw (Error "Invalid URL format").
Proof.
  split; [reflexivity|].
  destruct (initialize_failure Scenarios.offline
              (Scenarios.project_only Scenarios.invalid_url_config)
              constructed
              {| app := true; config := Scenarios.invalid_url_loaded; currentStrategy := None |}
              (Error "Invalid URL format") eq_refl)
    as [[L _]|[cfg [L [_ [C|S]]]]].
  - discriminate L.
  - exfalso. injection L as <-. discriminate C.
  - injection L as <-. exact S.
Defined.

(** [reloadConfig] is not atomic.  When it returns, the server has the
    new configuration and a strategy built from its active entry.  When
    [load] throws, nothing changed.  When the factory throws, the server
    is left with the new configuration and the strategy of the old
    one. *)
Theorem reloadConfig_outcomes
        (w : world) (env : ConfigLoader.sources) (st st' : state)
        (c : completion unit) :
  reloadConfig w env st = (st', c) ->
  app st' = app st
  /\ match c with
     | Return _ =>
         exists cfg s,
           ConfigLoader.load env = Return cfg
           /\ config st' = cfg /\ currentStrategy st' = Some s
           /\ BackendFactory.createStrategy w
                (ConfigLoader.backendEntry cfg (to_string (prop cfg "backend"))) = Return s
     | Throw e =>
         currentStrategy st' = currentStrategy st
         /\ ((ConfigLoader.load env = Throw e /\ st' = st)
             \/ exists cfg,
                  ConfigLoader.load env = Return cfg /\ config st' = cfg
                  /\ BackendFactory.createStrategy w
                       (ConfigLoader.backendEntry cfg (to_string (prop cfg "backend")))
                     = Throw e)
     end.
Proof.
  unfold reloadConfig. destruct (ConfigLoader.load env) as [cfg|e0] eqn:L.
  2:{ intros H. injection H as <- <-. split; [reflexivity|].
      split; [reflexivity|]. left. split; reflexivity. }
  rewrite (initializeBackend_loaded w env cfg _ _ L). cbv zeta.
  destruct (BackendFactory.createStrategy w _) as [s|e0] eqn:C.
  - intros H. injection H as <- <-. split; [reflexivity|].
    exists cfg, s. repeat split. exact C.
  - intros H. injection H as <- <-. split; [reflexivity|].
    split; [reflexivity|]. right. exists cfg. repeat split. exact C.
Qed.

(** A server on the cerebras backend reloads a project file whose
    self-hosted url does not parse: it is left with the self-hosted
    configuration and the cerebras strategy. *)
Lemma reloadConfig_outcomes_witness :
  reloadConfig Scenarios.offline (Scenarios.project_only Scenarios.invalid_url_config)
               MoreScenarios.running_on_cloud
  = ({| app := true; config := Scenarios.invalid_url_loaded;
        currentStrategy := Some (BackendFactory.Cerebras Scenarios.cloud) |},
     Throw (Error "Invalid URL format"))
  /\ currentStrategy
       (fst (reloadConfig Scenarios.offline
               (Scenarios.project_only Scenarios.invalid_url_config)
               MoreScenarios.running_on_cloud))
     = Some (BackendFactory.Cerebras Scenarios.cloud).
Proof.
  split; [reflexivity|].
  destruct (reloadConfig_outcomes Scenarios.offline
              (Scenarios.project_only Scenarios.invalid_url_config)
              MoreScenarios.running_on_cloud
              (fst (reloadConfig Scenarios.offline
                      (Scenarios.project_only Scenarios.invalid_url_config)
                      MoreScenarios.running_on_cloud))
              (Throw (Error "Invalid URL format")) eq_refl) as [_ [H _]].
  exact H.
Defined.

End LifecycleExtras.

(* ===================================================================== *)
(** * The command line *)
(* ===================================================================== *)

Section CliExtras.

Import ConfigLoader Cli.







(** [setup] never overwrites.  When a file is at [configPath] it
    completes and the file system is left as it is.  Otherwise, in a
    workspace directory that exists, it completes and the file is created
    with the default configuration and mode 0600; in one that does not
    exist, it exits with code 1 and writes nothing.  No other file
    changes, and a second [setup] changes nothing. *)
Theorem setup_never_overwrites
        (workspaceExists : bool) (configPath : string) (fs : filesystem) :
  let fs' := fst (setup workspaceExists configPath fs) in
  (pathExists configPath fs = true ->
   setup workspaceExists configPath fs = (fs, Completed))
  /\ (pathExists configPath fs = false -> workspaceExists = true ->
      snd (setup workspaceExists configPath fs) = Completed
      /\ find_file configPath (files fs')
         = Some {| contents := getDefaultConfig; mode := owner_read_write |})
  /\ (pathExists configPath fs = false -> workspaceExists = false ->
      setup workspaceExists configPath fs = (fs, Exited 1))
  /\ (forall other, String.eqb other configPath = false ->
        find_file other (files fs') = find_file other (files fs))
  /\ fst (setup workspaceExists configPath fs') = fs'.
Proof.
  cbv zeta.
  assert (Created : find_file configPath
                      (files (chmod configPath owner_read_write
                                (writeJson configPath getDefaultConfig fs)))
                    = Some {| contents := getDefaultConfig; mode := owner_read_write |}).
  { unfold chmod, writeJson. cbn [files umask].
    rewrite find_put_file. cbn [files contents]. now rewrite find_put_file. }
  unfold setup. destruct (pathExists configPath fs) eqn:E; cbn [fst snd].
  - split; [reflexivity|]. split; [intros H; discriminate H|].
    split; [intros H; discriminate H|]. split; [reflexivity|]. now rewrite E.
  - destruct workspaceExists; cbn [negb fst snd].
    + split; [intros H; discriminate H|]. split; [intros _ _; split; [reflexivity|exact Created]|].
      split; [intros _ H; discriminate H|]. split.
      * intros other H. rewrite (chmod_other _ _ _ _ H). unfold writeJson. cbn [files].
        now apply find_put_other.
      * unfold pathExists. now rewrite Created.
    + split; [intros H; discriminate H|]. split; [intros _ H; discriminate H|].
      split; [reflexivity|]. split; [reflexivity|]. now rewrite E.
Qed.

(** On an empty disk: in a workspace that exists the file is created with
    mode 0600; in one that does not, nothing is written. *)
Lemma setup_never_overwrites_witness :
  find_file "/w/.llmrc.json" (files (fst (setup true "/w/.llmrc.json" Scenarios.empty_disk)))
  = Some {| contents := getDefaultConfig; mode := 384 |}
  /\ setup false "/missing/.llmrc.json" Scenarios.empty_disk
     = (Scenarios.empty_disk, Exited 1).
Proof.
  split.
  - apply (proj1 (proj2 (setup_never_overwrites true "/w/.llmrc.json" Scenarios.empty_disk)));
      reflexivity.
  - apply (proj1 (proj2 (proj2 (setup_never_overwrites false "/missing/.llmrc.json"
                                  Scenarios.empty_disk))));
      reflexivity.
Defined.

End CliExtras.
